(** * CoInvest: the ledger, its allocation engine and its aggregates

    A shallow embedding of the bookkeeping core of the CoInvest application
    (React/TypeScript): the data model of [types.ts], the aggregates of the
    Dashboard and PartnerSummary components, the transaction form of the
    Projects component and the state handlers of [App.tsx].

    Conventions of the embedding.
    - A JavaScript [number] that holds a currency amount is a rational [Q].
      The aggregates add amounts exactly; the reconciliation of a split,
      where rounding decides which branch is taken, adds and subtracts in
      IEEE binary64 ([Js.add], [Js.sub]), infinities included.
    - The value of an [<input type="number">] is either the empty string or
      a numeric literal within the range of doubles (the browser empties
      any other value); it is embedded as [option Q], [None] being the empty
      string, whose [parseFloat] is NaN, and [Some q] the finite double [q]
      that the literal parses to. Negative zero is not distinguished from
      zero.
    - An optional string property ([partnerId?: string]) is [option string];
      JavaScript truthiness of such a value is [Js.truthy].
    - A JavaScript object used as a dictionary ([Record<string, _>]) is the
      association list of its own properties in enumeration order.
    - React state updates are explicit state passing; the identifiers drawn
      from [Math.random] come from an explicit supply. *)

From Stdlib Require Import List String Bool Arith ZArith Lia.
From Stdlib Require Import QArith Qabs Lqa.
Import ListNotations.

Local Open Scope Q_scope.

(** ** JavaScript primitives used by the sources *)

Module Js.

(** Truthiness of a string: only the empty string is falsy. *)
Definition truthyStr (s : string) : bool :=
  negb (String.eqb s EmptyString).

(** Truthiness of an optional string property: [undefined] and [''] are
    falsy. *)
Definition truthy (o : option string) : bool :=
  match o with
  | Some s => truthyStr s
  | None => false
  end.

(** [a || b] on optional strings. *)
Definition or (a b : option string) : option string :=
  if truthy a then a else b.

(** [a || b] where [b] is a string that is always there. *)
Definition orStr (a : option string) (b : string) : string :=
  match a with
  | Some s => if truthyStr s then s else b
  | None => b
  end.

(** [a === b] between an optional string property and a string. *)
Definition eqOpt (a : option string) (b : string) : bool :=
  match a with
  | Some s => String.eqb s b
  | None => false
  end.

(** The result of [parseFloat]. *)
Inductive number :=
| NaN
| Num (q : Q).

(** [parseFloat] on the value of a numeric input field. *)
Definition parseFloat (field : option Q) : number :=
  match field with
  | Some q => Num q
  | None => NaN
  end.

(** [n || 0]: NaN and 0 are falsy. *)
Definition orZero (n : number) : Q :=
  match n with
  | NaN => 0
  | Num q => q
  end.

(** [a > b] on rationals. *)
Definition gtb (a b : Q) : bool := negb (Qle_bool a b).

(** [obj[k] = v] on a dictionary object: an existing property keeps its
    place in the enumeration order, a new one goes last. *)
Fixpoint set {V : Type} (k : string) (v : V) (obj : list (string * V))
  : list (string * V) :=
  match obj with
  | [] => [(k, v)]
  | (k', v') :: rest =>
      if String.eqb k' k then (k', v) :: rest else (k', v') :: set k v rest
  end.

(** [map.get(k)] on a [Map] (and [obj[k]] on a dictionary object), kept
    as the list of its entries: [None] is [undefined]. *)
Definition get {V : Type} (k : string) (obj : list (string * V)) : option V :=
  option_map snd (find (fun entry => String.eqb (fst entry) k) obj).

(** [map.get(k) || 0] for a map of numbers. *)
Definition getOrZero (k : string) (obj : list (string * Q)) : Q :=
  match get k obj with
  | Some v => v
  | None => 0
  end.

(** *** IEEE binary64 arithmetic

    A double is a finite rational or an infinity. *)

Inductive double :=
| Finite (q : Q)
| Infinite (negative : bool).

(** The integer part of the binary logarithm of [n / d], for positive [n]
    and [d]. *)
Definition ilog2 (n d : Z) : Z :=
  let e0 := (Z.log2 n - Z.log2 d)%Z in
  if (0 <=? e0)%Z
  then (if (n <? d * 2 ^ e0)%Z then e0 - 1 else e0)%Z
  else (if (n * 2 ^ (- e0) <? d)%Z then e0 - 1 else e0)%Z.

(** The integer nearest to [num / den], ties going to the even one, for
    [num] not negative and [den] positive. *)
Definition roundEven (num den : Z) : Z :=
  let k := (num / den)%Z in
  let r := (num mod den)%Z in
  match (2 * r ?= den)%Z with
  | Lt => k
  | Gt => (k + 1)%Z
  | Eq => if Z.even k then k else (k + 1)%Z
  end.

(** Rounding to the nearest number with a significand of 53 bits and an
    exponent not below that of the subnormals, ties to even; the bound on
    large exponents is applied by [toDouble]. *)
Definition nearest (q : Q) : Q :=
  let q := Qred q in
  let n := Z.abs (Qnum q) in
  let d := Zpos (Qden q) in
  if (n =? 0)%Z then 0
  else
    let e := Z.max (ilog2 n d - 52) (-1074) in
    let v :=
      if (0 <=? e)%Z
      then inject_Z (roundEven n (d * 2 ^ e) * 2 ^ e)
      else Qred (roundEven (n * 2 ^ (- e)) d # Z.to_pos (2 ^ (- e))) in
    if (Qnum q <? 0)%Z then - v else v.

(** The double that an exact result rounds to: round to nearest, ties to
    even, overflowing to an infinity from [2^1024] on. *)
Definition toDouble (q : Q) : double :=
  let r := nearest q in
  if Qle_bool (inject_Z (2 ^ 1024)) (Qabs r)
  then Infinite (Qnum r <? 0)%Z
  else Finite r.

(** [a + b] and [a - b] for a double [a] and a finite double [b]. *)
Definition add (a : double) (b : Q) : double :=
  match a with
  | Finite x => toDouble (x + b)
  | Infinite negative => Infinite negative
  end.

Definition sub (a : double) (b : Q) : double :=
  match a with
  | Finite x => toDouble (x - b)
  | Infinite negative => Infinite negative
  end.

(** [Math.abs(a) > bound] *)
Definition absGt (a : double) (bound : Q) : bool :=
  match a with
  | Finite x => gtb (Qabs x) bound
  | Infinite _ => true
  end.

End Js.

(** ** Data model ([types.ts]) *)

Inductive TransactionType :=
| INVESTMENT
| INCOME
| EXPENSE
| WITHDRAWAL.

Definition TransactionType_eqb (a b : TransactionType) : bool :=
  match a, b with
  | INVESTMENT, INVESTMENT | INCOME, INCOME
  | EXPENSE, EXPENSE | WITHDRAWAL, WITHDRAWAL => true
  | _, _ => false
  end.

Module Partner.
Record t := mk {
  id : string;
  name : string;
  avatar : string;
  color : string
}.
End Partner.

Module Project.
Inductive Status := active | completed | planning.

Record t := mk {
  id : string;
  name : string;
  description : string;
  status : Status;
  startDate : string
}.
End Project.

Module Transaction.
Record t := mk {
  id : string;
  projectId : string;
  partnerId : option string;
  type : TransactionType;
  amount : Q;
  date : string;
  note : string
}.
End Transaction.

(** [Omit<Transaction, 'id'>], the argument of [onAddTransaction]. *)
Module NewTransaction.
Record t := mk {
  projectId : string;
  partnerId : option string;
  type : TransactionType;
  amount : Q;
  date : string;
  note : string
}.

(** [{ ...transaction, id }] *)
Definition withId (i : string) (d : t) : Transaction.t :=
  Transaction.mk i (projectId d) (partnerId d) (type d) (amount d)
                 (date d) (note d).
End NewTransaction.

Record AppState := mkAppState {
  partners : list Partner.t;
  projects : list Project.t;
  transactions : list Transaction.t
}.

(** ** Dashboard: global totals ([Dashboard.stats]) *)

Module Dashboard.

Record Stats := mkStats {
  totalInvestment : Q;
  totalIncome : Q;
  totalExpense : Q;
  netProfit : Q
}.

(** The three running totals of the [forEach] loop. *)
Record Totals := mkTotals {
  accInvestment : Q;
  accIncome : Q;
  accExpense : Q
}.

(** One iteration of the loop body. *)
Definition visit (acc : Totals) (t : Transaction.t) : Totals :=
  match Transaction.type t with
  | INVESTMENT =>
      mkTotals (accInvestment acc + Transaction.amount t)
               (accIncome acc) (accExpense acc)
  | EXPENSE =>
      let expense := accExpense acc + Transaction.amount t in
      if Js.truthy (Transaction.partnerId t)
      then mkTotals (accInvestment acc + Transaction.amount t)
                    (accIncome acc) expense
      else mkTotals (accInvestment acc) (accIncome acc) expense
  | INCOME =>
      mkTotals (accInvestment acc)
               (accIncome acc + Transaction.amount t) (accExpense acc)
  | WITHDRAWAL => acc
  end.

Definition stats (data : AppState) : Stats :=
  let acc := fold_left visit (transactions data) (mkTotals 0 0 0) in
  mkStats (accInvestment acc) (accIncome acc) (accExpense acc)
          (accIncome acc - accExpense acc).

(** One entry of the pie chart. *)
Record Slice := mkSlice {
  sliceName : string;
  value : Q;
  sliceColor : string
}.

(** The body of the loop that fills the [Map] of [partnerInvestments]. *)
Definition tally (map : list (string * Q)) (t : Transaction.t)
  : list (string * Q) :=
  match Transaction.partnerId t with
  | Some partnerId =>
      if Js.truthyStr partnerId then
        if TransactionType_eqb (Transaction.type t) INVESTMENT
           || TransactionType_eqb (Transaction.type t) EXPENSE
        then
          let current := Js.getOrZero partnerId map in
          Js.set partnerId (current + Transaction.amount t) map
        else map
      else map
  | None => map
  end.

Definition partnerInvestments (data : AppState) : list Slice :=
  let map := fold_left tally (transactions data) [] in
  filter (fun item => Js.gtb (value item) 0)
         (List.map (fun p => mkSlice (Partner.name p)
                                     (Js.getOrZero (Partner.id p) map)
                                     (Partner.color p))
                   (partners data)).

(** The percentage column of the partner table. *)
Definition percentage (data : AppState) (p : Slice) : Q :=
  if Js.gtb (totalInvestment (stats data)) 0
  then (value p / totalInvestment (stats data)) * 100
  else 0.



End Dashboard.

(** The aggregation rules in the words of the specification: a sum of the
    amounts of the transactions selected by a predicate. *)
Module AggregationSpec.

Definition sumWhere (p : Transaction.t -> bool) (l : list Transaction.t) : Q :=
  fold_right Qplus 0 (map Transaction.amount (filter p l)).

Definition isType (ty : TransactionType) (t : Transaction.t) : bool :=
  TransactionType_eqb (Transaction.type t) ty.

Definition isPartnerExpense (t : Transaction.t) : bool :=
  isType EXPENSE t && Js.truthy (Transaction.partnerId t).

(** A partner's invested amount: the transactions of type INVESTMENT or
    EXPENSE whose partnerId is that partner. *)
Definition isInvestedBy (partnerId : string) (t : Transaction.t) : bool :=
  Js.eqOpt (Transaction.partnerId t) partnerId
  && (isType INVESTMENT t || isType EXPENSE t).

Definition sumQ (l : list Q) : Q := fold_right Qplus 0 l.

End AggregationSpec.

(** The invariants of the data model that the aggregates rely on. *)
Module DataModel.

Definition partnerIds (data : AppState) : list string :=
  map Partner.id (partners data).




Definition projectIds (data : AppState) : list string :=
  map Project.id (projects data).

Definition transactionIds (data : AppState) : list string :=
  map Transaction.id (transactions data).

(** Every transaction belongs to an existing project. *)
Definition projectRefsResolve (data : AppState) : Prop :=
  forall t, In t (transactions data) ->
            In (Transaction.projectId t) (projectIds data).

(** Every partnerId that is defined is the id of an existing partner. *)
Definition partnerRefsResolve (data : AppState) : Prop :=
  forall t x,
    In t (transactions data) -> Transaction.partnerId t = Some x ->
    In x (partnerIds data).

End DataModel.

(** ** PartnerSummary: ownership shares *)

Module PartnerSummary.

(** [globalTotalInvestment]: the [reduce] over all transactions. *)
Definition globalTotalInvestment (data : AppState) : Q :=
  fold_left
    (fun sum t =>
       if TransactionType_eqb (Transaction.type t) INVESTMENT
       then sum + Transaction.amount t
       else if TransactionType_eqb (Transaction.type t) EXPENSE
               && Js.truthy (Transaction.partnerId t)
       then sum + Transaction.amount t
       else sum)
    (transactions data) 0.

(** The filter of [globalPartnerInvested]: the partner's INVESTMENT and
    EXPENSE transactions. *)
Definition investedBy (partner : Partner.t) (t : Transaction.t) : bool :=
  Js.eqOpt (Transaction.partnerId t) (Partner.id partner)
  && (TransactionType_eqb (Transaction.type t) INVESTMENT
      || TransactionType_eqb (Transaction.type t) EXPENSE).

Definition globalPartnerInvested (data : AppState) (partner : Partner.t) : Q :=
  fold_left (fun sum t => sum + Transaction.amount t)
            (filter (investedBy partner) (transactions data)) 0.

Definition sharePercent (data : AppState) (partner : Partner.t) : Q :=
  if Js.gtb (globalTotalInvestment data) 0
  then (globalPartnerInvested data partner / globalTotalInvestment data) * 100
  else 0.

(** [targetPartners]: every partner under the filter ['all'], otherwise
    the partners with the selected id. *)
Definition targetPartners (filterPartner : string) (data : AppState)
  : list Partner.t :=
  if String.eqb filterPartner "all"
  then partners data
  else filter (fun p => String.eqb (Partner.id p) filterPartner)
              (partners data).

(** The [sharePercent] of each row of [filteredData], before its final
    [hasData] filter; the other columns of a row are not modelled. *)
Definition sharePercents (filterPartner : string) (data : AppState) : list Q :=
  map (sharePercent data) (targetPartners filterPartner data).

End PartnerSummary.

(** ** ProjectSummary: the statement of one project

    [stats] without its [recentTx] field, whose order depends on the parsing
    of dates. *)

Module ProjectSummary.

Record Share := mkShare {
  shareName : string;
  shareValue : Q;
  shareColor : string
}.

Record Stats := mkStats {
  income : Q;
  expense : Q;
  investment : Q;
  netProfit : Q;
  roi : Q;
  partnerShares : list Share;
  count : nat
}.

(** The transactions of the selected project, restricted to the month when
    [filterMonth] is set. *)
Definition scope (data : AppState) (selectedProjectId filterMonth : string)
  : list Transaction.t :=
  let transactions :=
    filter (fun t => String.eqb (Transaction.projectId t) selectedProjectId)
           (transactions data) in
  if Js.truthyStr filterMonth
  then filter (fun t => String.prefix filterMonth (Transaction.date t))
              transactions
  else transactions.

Definition sumOfType (ty : TransactionType) (transactions : list Transaction.t)
  : Q :=
  fold_left (fun s t => s + Transaction.amount t)
    (filter (fun t => TransactionType_eqb (Transaction.type t) ty) transactions)
    0.

Definition stats (data : AppState) (selectedProjectId filterMonth : string)
  : option Stats :=
  if negb (Js.truthyStr selectedProjectId) then None
  else
    let transactions := scope data selectedProjectId filterMonth in
    let income := sumOfType INCOME transactions in
    let expense := sumOfType EXPENSE transactions in
    let investment := sumOfType INVESTMENT transactions in
    let netProfit := income - expense in
    let roi :=
      if Js.gtb investment 0 then (netProfit / investment) * 100 else 0 in
    let partnerShares :=
      filter (fun p => Js.gtb (shareValue p) 0)
        (map (fun p =>
                let invested :=
                  fold_left (fun s t => s + Transaction.amount t)
                    (filter
                       (fun t =>
                          TransactionType_eqb (Transaction.type t) INVESTMENT
                          && Js.eqOpt (Transaction.partnerId t) (Partner.id p))
                       transactions)
                    0 in
                mkShare (Partner.name p) invested (Partner.color p))
             (partners data)) in
    Some (mkStats income expense investment netProfit roi partnerShares
                  (List.length transactions)).

End ProjectSummary.

(** ** Projects: the transaction form and its allocation logic

    [handleFormSubmit] talks to the ledger only through the callbacks it
    receives as props; its embedding returns the calls it makes, in order.
    The resets of the form fields that follow a submission do not touch the
    ledger and are left out. *)

Module Projects.

Record Form := mkForm {
  selectedProjectId : option string;
  editingId : option string;
  transType : TransactionType;
  transAmount : option Q;
  transPartner : string;
  transNote : string;
  transDate : string;
  isSplitMode : bool;
  splitAmounts : list (string * option Q)
}.

(** A call of one of the callback props. *)
Inductive Call :=
| OnUpdateTransaction (t : Transaction.t)
| OnAddTransaction (t : NewTransaction.t).

(** How [handleFormSubmit] ends: a silent [return], a validation [alert]
    followed by [return], or the sequence of callback calls it made. *)
Inductive Result :=
| Return
| Alert
| Submit (calls : list Call).

Definition callsOf (r : Result) : list Call :=
  match r with
  | Submit calls => calls
  | Return | Alert => []
  end.

Definition rejected (r : Result) : bool :=
  match r with
  | Submit _ => false
  | Return | Alert => true
  end.

Definition findProject (data : AppState) (pid : string) : option Project.t :=
  find (fun p => String.eqb (Project.id p) pid) (projects data).

(** [selectedProject]: [data.projects.find(p => p.id === selectedProjectId)] *)
Definition selectedProject (data : AppState) (f : Form) : option Project.t :=
  find (fun p => Js.eqOpt (selectedProjectId f) (Project.id p)) (projects data).

(** [x?.name] inside a template literal. *)
Definition nameOrUndefined (p : option Project.t) : string :=
  match p with
  | Some p => Project.name p
  | None => "undefined"
  end.

Definition calculateSplitTotal (f : Form) : Js.double :=
  fold_left (fun sum val => Js.add sum (Js.orZero (Js.parseFloat val)))
            (map snd (splitAmounts f)) (Js.Finite 0).

(** The body of the loop that fills [sourcesToProcess] in split mode:
    [const amt = parseFloat(val); if (amt > 0) sourcesToProcess[key] = amt],
    where a comparison with NaN is false. *)
Definition collectSource (sourcesToProcess : list (string * Q))
           (entry : string * option Q) : list (string * Q) :=
  match Js.parseFloat (snd entry) with
  | Js.Num amt =>
      if Js.gtb amt 0 then Js.set (fst entry) amt sourcesToProcess
      else sourcesToProcess
  | Js.NaN => sourcesToProcess
  end.

(** [sourcesToProcess] in split mode. *)
Definition splitSources (f : Form) : list (string * Q) :=
  fold_left collectSource (splitAmounts f) [].

(** The body of [Object.entries(sourcesToProcess).forEach]: the records
    handed to [onAddTransaction] for one funding source. *)
Definition processSource (data : AppState) (f : Form) (selected : string)
           (source : string * Q) : list NewTransaction.t :=
  let sourceKey := fst source in
  let amount := snd source in
  let isPartner :=
    existsb (fun p => String.eqb (Partner.id p) sourceKey) (partners data) in
  let isProject :=
    existsb (fun p => String.eqb (Project.id p) sourceKey) (projects data) in
  if isProject then
    let sourceProj := findProject data sourceKey in
    [ NewTransaction.mk selected None EXPENSE amount (transDate f)
        (transNote f ++ " (ดึงเงินจากโครงการ: "
           ++ nameOrUndefined sourceProj ++ ")")%string;
      NewTransaction.mk sourceKey None EXPENSE amount (transDate f)
        ("(นำเงินไปหมุนให้โครงการ: "
           ++ nameOrUndefined (selectedProject data f) ++ ") "
           ++ transNote f)%string ]
  else if isPartner then
    let partnerName :=
      match find (fun p => String.eqb (Partner.id p) sourceKey)
                 (partners data) with
      | Some p => Partner.name p
      | None => "undefined"%string
      end in
    [ NewTransaction.mk selected (Some sourceKey) EXPENSE amount (transDate f)
        (if isSplitMode f
         then (transNote f ++ " (จ่ายโดย " ++ partnerName ++ ")")%string
         else transNote f) ]
  else
    [ NewTransaction.mk selected None EXPENSE amount (transDate f)
        (if isSplitMode f
         then (transNote f ++ " (กองกลาง)")%string
         else transNote f) ].

(** The edit branch: update the edited transaction, then record a
    deduction in the source project when the source is a project. *)
Definition submitEdit (data : AppState) (f : Form)
           (selected editing : string) (totalAmount : Q) : list Call :=
  let sourceProject := findProject data (transPartner f) in
  OnUpdateTransaction
    (Transaction.mk editing selected
       (match sourceProject with
        | Some _ => None
        | None =>
            if Js.truthyStr (transPartner f) then Some (transPartner f)
            else None
        end)
       (transType f) totalAmount (transDate f)
       (match sourceProject with
        | Some sp =>
            (transNote f ++ " (แก้ไข: ดึงเงินจาก " ++ Project.name sp ++ ")")%string
        | None => transNote f
        end))
  :: match sourceProject with
     | Some sp =>
         [ OnAddTransaction
             (NewTransaction.mk (Project.id sp) None EXPENSE totalAmount
                (transDate f)
                ("(ตัดยอดจากการแก้ไข) เงินถูกยืมไปโครงการ: "
                   ++ nameOrUndefined (selectedProject data f) ++ " - "
                   ++ transNote f)%string) ]
     | None => []
     end.

(** The creation branch once [sourcesToProcess] is known. *)
Definition submitCreate (data : AppState) (f : Form) (selected : string)
           (sourcesToProcess : list (string * Q)) : list Call :=
  map OnAddTransaction
      (flat_map (processSource data f selected) sourcesToProcess).

(** The creation logic: build [sourcesToProcess], then process it. *)
Definition submitNew (data : AppState) (f : Form) (selected : string)
           (totalAmount : Q) : Result :=
  if isSplitMode f then
    let currentSplitTotal := calculateSplitTotal f in
    if Js.absGt (Js.sub currentSplitTotal totalAmount) 1 then Alert
    else Submit (submitCreate data f selected (splitSources f))
  else
    let sourceKey :=
      if Js.truthyStr (transPartner f) then transPartner f
      else "POOL"%string in
    Submit (submitCreate data f selected [(sourceKey, totalAmount)]).

Definition handleFormSubmit (data : AppState) (f : Form) : Result :=
  match selectedProjectId f, transAmount f with
  | Some selected, Some totalAmount =>
      if negb (Js.truthyStr selected) then Return
      else
        match editingId f with
        | Some editing =>
            if Js.truthyStr editing
            then Submit (submitEdit data f selected editing totalAmount)
            else submitNew data f selected totalAmount
        | None => submitNew data f selected totalAmount
        end
  | _, _ => Return
  end.

(** [startEditing]: load a transaction into the form. The amount field
    receives [t.amount.toString()]. *)
Definition startEditing (t : Transaction.t) (f : Form) : Form :=
  mkForm (selectedProjectId f)
         (Some (Transaction.id t))
         (Transaction.type t)
         (Some (Transaction.amount t))
         (match Transaction.partnerId t with
          | Some partnerId =>
              if Js.truthyStr partnerId then partnerId else EmptyString
          | None => EmptyString
          end)
         (Transaction.note t)
         (Transaction.date t)
         false
         (splitAmounts f).

(** [otherProjects]: the projects offered as funding sources. *)
Definition otherProjects (data : AppState) (f : Form) : list Project.t :=
  filter (fun p => negb (Js.eqOpt (selectedProjectId f) (Project.id p)))
         (projects data).

(** [projectTransactions] before its sort by date: the rows of the
    transaction list, each with an edit and a delete button. *)
Definition shownTransactions (data : AppState) (f : Form)
  : list Transaction.t :=
  filter (fun t => Js.eqOpt (selectedProjectId f) (Transaction.projectId t))
         (transactions data).

End Projects.

(** ** Projects, the form of [components/Projects.tsx]

    The version of the component without split payment and cross-project
    funding; it reads the same form fields, the split fields apart. *)

Module ProjectsV1.

Definition handleFormSubmit (f : Projects.Form) : Projects.Result :=
  match Projects.selectedProjectId f, Projects.transAmount f with
  | Some selected, Some amount =>
      if negb (Js.truthyStr selected) then Projects.Return
      else
        let partnerId :=
          if Js.truthyStr (Projects.transPartner f)
          then Some (Projects.transPartner f) else None in
        let update editing :=
          Projects.Submit
            [ Projects.OnUpdateTransaction
                (Transaction.mk editing selected partnerId
                   (Projects.transType f) amount (Projects.transDate f)
                   (Projects.transNote f)) ] in
        let create :=
          Projects.Submit
            [ Projects.OnAddTransaction
                (NewTransaction.mk selected partnerId (Projects.transType f)
                   amount (Projects.transDate f) (Projects.transNote f)) ] in
        match Projects.editingId f with
        | Some editing => if Js.truthyStr editing then update editing else create
        | None => create
        end
  | _, _ => Projects.Return
  end.

End ProjectsV1.

(** ** App: the state handlers and the realtime merge *)

Module App.

(** *** Optimistic handlers

    Each handler updates the local state at once and then awaits the remote
    store; [remoteError] is the outcome of that call ([None] on success).
    An addition is reverted by a functional update that filters the new id
    out of whatever the list is by then. A deletion is reverted by writing
    back the list read before the call, whatever was applied in between; its
    two steps are therefore given on their own, and [handleDeleteTransaction]
    and [handleDeletePartner] chain them for a call that is answered before
    any other update of the state. *)

(** The alert shown by a handler, if any. *)
Inductive Notice :=
| Silent
| Alerted (message : string).

Definition withTransactions (prev : AppState) (l : list Transaction.t)
  : AppState :=
  mkAppState (partners prev) (projects prev) l.

Definition withPartners (prev : AppState) (l : list Partner.t) : AppState :=
  mkAppState l (projects prev) (transactions prev).

Definition withProjects (prev : AppState) (l : list Project.t) : AppState :=
  mkAppState (partners prev) l (transactions prev).

(** [handleAddTransaction]; [newId] is the identifier drawn from
    [Math.random]. *)
Definition handleAddTransaction (remoteError : option string) (newId : string)
           (transaction : NewTransaction.t) (data : AppState)
  : AppState * Notice :=
  let newTransaction := NewTransaction.withId newId transaction in
  let optimistic :=
    withTransactions data (transactions data ++ [newTransaction]) in
  match remoteError with
  | None => (optimistic, Silent)
  | Some message =>
      (withTransactions optimistic
         (filter (fun t => negb (String.eqb (Transaction.id t) newId))
                 (transactions optimistic)),
       Alerted ("บันทึกข้อมูลไม่สำเร็จ: " ++ message)%string)
  end.

(** The optimistic step of [handleDeleteTransaction], a functional update
    of the current state. *)
Definition deleteTransactionOptimistic (id : string) (prev : AppState)
  : AppState :=
  withTransactions prev
    (filter (fun t => negb (String.eqb (Transaction.id t) id))
            (transactions prev)).

(** The revert of [handleDeleteTransaction], applied to the state current
    when the refusal arrives: the list read before the call is written
    back. *)
Definition deleteTransactionRevert (message : string)
           (previousTransactions : list Transaction.t) (prev : AppState)
  : AppState * Notice :=
  (withTransactions prev previousTransactions,
   Alerted ("ลบข้อมูลไม่สำเร็จ: " ++ message)%string).

Definition handleDeleteTransaction (remoteError : option string) (id : string)
           (data : AppState) : AppState * Notice :=
  let previousTransactions := transactions data in
  let optimistic := deleteTransactionOptimistic id data in
  match remoteError with
  | None => (optimistic, Silent)
  | Some message =>
      deleteTransactionRevert message previousTransactions optimistic
  end.

(** The optimistic step of [handleDeletePartner], taken once the guard has
    let the call through. *)
Definition deletePartnerOptimistic (id : string) (prev : AppState)
  : AppState :=
  withPartners prev
    (filter (fun p => negb (String.eqb (Partner.id p) id)) (partners prev)).

(** The revert of [handleDeletePartner], applied to the state current when
    the refusal arrives. *)
Definition deletePartnerRevert (message : string)
           (previousPartners : list Partner.t) (prev : AppState)
  : AppState * Notice :=
  (withPartners prev previousPartners,
   Alerted ("ลบข้อมูลไม่สำเร็จ: " ++ message)%string).

Definition handleDeletePartner (remoteError : option string) (id : string)
           (data : AppState) : AppState * Notice :=
  let hasTransactions :=
    existsb (fun t => Js.eqOpt (Transaction.partnerId t) id)
            (transactions data) in
  if hasTransactions then
    (data, Alerted "ไม่สามารถลบหุ้นส่วนที่มีรายการธุรกรรมอยู่ได้")
  else
    let previousPartners := partners data in
    let optimistic := deletePartnerOptimistic id data in
    match remoteError with
    | None => (optimistic, Silent)
    | Some message => deletePartnerRevert message previousPartners optimistic
    end.

(** [Omit<Partner, 'id'>] and [Omit<Project, 'id'>] are given as records
    whose [id] is overwritten by the drawn identifier. *)
Definition handleAddPartner (remoteError : option string) (newId : string)
           (partner : Partner.t) (data : AppState) : AppState * Notice :=
  let newPartner :=
    Partner.mk newId (Partner.name partner) (Partner.avatar partner)
               (Partner.color partner) in
  let optimistic := withPartners data (partners data ++ [newPartner]) in
  match remoteError with
  | None => (optimistic, Silent)
  | Some message =>
      (withPartners optimistic
         (filter (fun p => negb (String.eqb (Partner.id p) newId))
                 (partners optimistic)),
       Alerted ("บันทึกข้อมูลไม่สำเร็จ: " ++ message)%string)
  end.

Definition handleAddProject (remoteError : option string) (newId : string)
           (project : Project.t) (data : AppState) : AppState * Notice :=
  let newProject :=
    Project.mk newId (Project.name project) (Project.description project)
               (Project.status project) (Project.startDate project) in
  let optimistic := withProjects data (projects data ++ [newProject]) in
  match remoteError with
  | None => (optimistic, Silent)
  | Some message =>
      (withProjects optimistic
         (filter (fun p => negb (String.eqb (Project.id p) newId))
                 (projects optimistic)),
       Alerted ("บันทึกข้อมูลไม่สำเร็จ: " ++ message)%string)
  end.

(** *** Realtime change events

    A payload carries [new] for INSERT and UPDATE and [old] for DELETE, of
    which only [old.id] is read. *)

Inductive Payload (Row : Type) :=
| INSERT (new : Row)
| UPDATE (new : Row)
| DELETE (oldId : string).

Arguments INSERT {Row} new.
Arguments UPDATE {Row} new.
Arguments DELETE {Row} oldId.

Section Merge.

Context {Row Item : Type}.
Variable itemId : Item -> string.
Variable mapRecord : Row -> Item.

(** The update of one entity list inside the [setData] updater. *)
Definition mergeEvent (payload : Payload Row) (current : list Item)
  : list Item :=
  let updatedList := current in
  match payload with
  | INSERT newRecord =>
      let record := mapRecord newRecord in
      match find (fun item => String.eqb (itemId item) (itemId record))
                 updatedList with
      | Some _ => updatedList
      | None => updatedList ++ [record]
      end
  | UPDATE newRecord =>
      let record := mapRecord newRecord in
      map (fun item =>
             if String.eqb (itemId item) (itemId record)
             then record else item)
          updatedList
  | DELETE oldId =>
      filter (fun item => negb (String.eqb (itemId item) oldId))
             updatedList
  end.

End Merge.

(** A project record as the change feed delivers it: the fields of a
    project together with the optional snake_case column. *)
Record ProjectRow := mkProjectRow {
  projectRec : Project.t;
  start_date : option string
}.

(** A transaction record as the change feed delivers it. *)
Record TransactionRow := mkTransactionRow {
  transactionRec : Transaction.t;
  project_id : option string;
  partner_id : option string
}.

(** [mapRecord] for the table ['projects']. *)
Definition mapProject (rec : ProjectRow) : Project.t :=
  let p := projectRec rec in
  Project.mk (Project.id p) (Project.name p) (Project.description p)
    (Project.status p)
    (Js.orStr (start_date rec) (Project.startDate p)).

(** [mapRecord] for the table ['transactions']. *)
Definition mapTransaction (rec : TransactionRow) : Transaction.t :=
  let t := transactionRec rec in
  Transaction.mk (Transaction.id t)
    (Js.orStr (project_id rec) (Transaction.projectId t))
    (Js.or (partner_id rec) (Transaction.partnerId t))
    (Transaction.type t) (Transaction.amount t) (Transaction.date t)
    (Transaction.note t).

(** The table a change event belongs to, with its payload. *)
Inductive Change :=
| OnPartners (payload : Payload Partner.t)
| OnProjects (payload : Payload ProjectRow)
| OnTransactions (payload : Payload TransactionRow).

Definition handleRealtimeUpdate (change : Change) (prev : AppState)
  : AppState :=
  match change with
  | OnPartners payload =>
      withPartners prev
        (mergeEvent Partner.id (fun rec => rec) payload (partners prev))
  | OnProjects payload =>
      withProjects prev
        (mergeEvent Project.id mapProject payload (projects prev))
  | OnTransactions payload =>
      withTransactions prev
        (mergeEvent Transaction.id mapTransaction payload (transactions prev))
  end.

(** *** The update handler *)

(** Modelled from the spec: Projects declares and calls the prop
    [onUpdateTransaction], and no handler for it is among the sources. The
    specification has an update replace the record by id. *)
Definition handleUpdateTransaction (transaction : Transaction.t)
           (data : AppState) : AppState :=
  withTransactions data
    (map (fun t =>
            if String.eqb (Transaction.id t) (Transaction.id transaction)
            then transaction else t)
         (transactions data)).

(** *** The Projects view and its props

    Projects receives [data], [onAddTransaction], [onUpdateTransaction] and
    [onDeleteTransaction] (ProjectsProps). The first and the last are App's
    handlers, taken here with a remote store that accepts; the update
    handler is a parameter of the section. *)

Record Session := mkSession {
  data : AppState;
  drawn : nat
}.

Section View.

(** The successive identifiers [Math.random().toString(36).substr(2, 9)]. *)
Variable randomId : nat -> string.

(** The function passed as [onUpdateTransaction]. *)
Variable onUpdateTransaction : Transaction.t -> AppState -> AppState.

Definition onAddTransaction (transaction : NewTransaction.t) (s : Session)
  : Session :=
  mkSession
    (fst (handleAddTransaction None (randomId (drawn s)) transaction (data s)))
    (S (drawn s)).

(** Calling a prop. *)
Definition invoke (call : Projects.Call) (s : Session) : Session :=
  match call with
  | Projects.OnAddTransaction t => onAddTransaction t s
  | Projects.OnUpdateTransaction t =>
      mkSession (onUpdateTransaction t (data s)) (drawn s)
  end.

(** The calls of a handler, in order. *)
Fixpoint runCalls (calls : list Projects.Call) (s : Session) : Session :=
  match calls with
  | [] => s
  | call :: rest => runCalls rest (invoke call s)
  end.

(** Submitting the transaction form. The form is rendered only while
    [selectedProject] is found. *)
Definition submitForm (f : Projects.Form) (s : Session) : Session :=
  match Projects.selectedProject (data s) f with
  | Some _ =>
      runCalls (Projects.callsOf (Projects.handleFormSubmit (data s) f)) s
  | None => s
  end.

(** The delete button of a transaction row. *)
Definition deleteTransaction (id : string) (s : Session) : Session :=
  mkSession (fst (handleDeleteTransaction None id (data s))) (drawn s).

End View.

End App.

(** ** supabaseService: the rows written to and read from the store

    A row of the store has the snake_case columns and no camelCase
    property; in a received row the missing [projectId] and [startDate]
    are the empty string and the missing [partnerId] is [None]. *)

Module SupabaseService.

(** [dbTransaction], the row inserted by [addTransaction]. *)
Record DbTransaction := mkDbTransaction {
  t_id : string;
  t_project_id : string;
  t_partner_id : option string;
  t_type : TransactionType;
  t_amount : Q;
  t_date : string;
  t_note : string
}.

Definition dbTransaction (transaction : Transaction.t) : DbTransaction :=
  mkDbTransaction (Transaction.id transaction)
                  (Transaction.projectId transaction)
                  (Transaction.partnerId transaction)
                  (Transaction.type transaction)
                  (Transaction.amount transaction)
                  (Transaction.date transaction)
                  (Transaction.note transaction).

(** [dbProject], the row inserted by [addProject]. *)
Record DbProject := mkDbProject {
  p_id : string;
  p_name : string;
  p_description : string;
  p_status : Project.Status;
  p_start_date : string
}.

Definition dbProject (project : Project.t) : DbProject :=
  mkDbProject (Project.id project) (Project.name project)
              (Project.description project) (Project.status project)
              (Project.startDate project).

(** A stored transaction as a received record. *)
Definition receivedTransaction (row : DbTransaction) : App.TransactionRow :=
  App.mkTransactionRow
    (Transaction.mk (t_id row) EmptyString None (t_type row) (t_amount row)
                    (t_date row) (t_note row))
    (Some (t_project_id row)) (t_partner_id row).

(** A stored project as a received record. *)
Definition receivedProject (row : DbProject) : App.ProjectRow :=
  App.mkProjectRow
    (Project.mk (p_id row) (p_name row) (p_description row) (p_status row)
                EmptyString)
    (Some (p_start_date row)).

(** The snapshot built by [loadData] from the three tables when no query
    fails. *)
Definition loadData (partnerRows : list Partner.t)
           (projectRows : list DbProject)
           (transactionRows : list DbTransaction) : AppState :=
  mkAppState partnerRows
    (map (fun p => App.mapProject (receivedProject p)) projectRows)
    (map (fun t => App.mapTransaction (receivedTransaction t)) transactionRows).

End SupabaseService.

(** ** Vocabulary of the store properties *)

Module StoreSpec.

(** A transaction that survives being written and read back: its projectId
    is non-empty and its partnerId is absent or non-empty. *)
Definition storable (t : Transaction.t) : Prop :=
  Js.truthyStr (Transaction.projectId t) = true
  /\ (forall x, Transaction.partnerId t = Some x -> Js.truthyStr x = true).

End StoreSpec.

(** ** Vocabulary of the allocation properties *)

Module AllocationSpec.

(** The records a submission hands to [onAddTransaction]. *)
Definition added (r : Projects.Result) : list NewTransaction.t :=
  flat_map (fun call =>
              match call with
              | Projects.OnAddTransaction t => [t]
              | Projects.OnUpdateTransaction _ => []
              end)
           (Projects.callsOf r).

(** The sum of the EXPENSE amounts recorded on a project. *)
Definition expenseOn (project : string) (records : list NewTransaction.t) : Q :=
  AggregationSpec.sumQ
    (map NewTransaction.amount
       (filter (fun t =>
                  TransactionType_eqb (NewTransaction.type t) EXPENSE
                  && String.eqb (NewTransaction.projectId t) project)
               records)).

(** The sum of the parsed sub-amounts of a split, every entry included. *)
Definition parsedTotal (split : list (string * option Q)) : Q :=
  AggregationSpec.sumQ
    (map (fun entry => Js.orZero (Js.parseFloat (snd entry))) split).

(** The entries of a split whose sub-amount is strictly positive. *)
Definition positiveEntries (split : list (string * option Q))
  : list (string * Q) :=
  flat_map (fun entry =>
              match snd entry with
              | Some amt => if Js.gtb amt 0 then [(fst entry, amt)] else []
              | None => []
              end)
           split.

(** The running total of a split as the code computes it, entry after
    entry in binary64. *)
Definition parsedValues (split : list (string * option Q)) : list Q :=
  map (fun entry => Js.orZero (Js.parseFloat (snd entry))) split.

(** [q] is a finite double: rounding leaves its value as it is. *)
Definition representable (q : Q) : Prop :=
  exists r, Js.toDouble q = Js.Finite r /\ r == q.

(** Every partial sum [s + v1 + ... + vk] is a finite double. *)
Fixpoint sumsRepresentable (s : Q) (values : list Q) : Prop :=
  match values with
  | [] => True
  | v :: rest => representable (s + v) /\ sumsRepresentable (s + v) rest
  end.

(** The reconciliation of a split against the amount [A] involves no
    rounding: every partial sum of the sub-amounts, and the difference of
    their total and [A], are finite doubles. *)
Definition exactReconciliation (split : list (string * option Q)) (A : Q)
  : Prop :=
  sumsRepresentable 0 (parsedValues split)
  /\ representable (parsedTotal split - A).

(** The sub-amounts and [A] are whole numbers whose absolute values add up
    to at most [2^53]; such a split reconciles without rounding. *)
Definition wholeAmounts (split : list (string * option Q)) (A : Q) : Prop :=
  exists (values : list Z) (a : Z),
    Forall2 (fun v z => v == inject_Z z) (parsedValues split) values
    /\ A == inject_Z a
    /\ (fold_right (fun z total => Z.abs z + total) (Z.abs a) values
        <= 2 ^ 53)%Z.

(** An EXPENSE record on [project] of [amount], dated [date], with
    [partner] as its partner. *)
Definition expenseRecord (project : string) (partner : option string)
           (amount : Q) (date : string) (t : NewTransaction.t) : Prop :=
  NewTransaction.projectId t = project
  /\ NewTransaction.partnerId t = partner
  /\ NewTransaction.type t = EXPENSE
  /\ NewTransaction.amount t = amount
  /\ NewTransaction.date t = date.

Definition isProjectId (data : AppState) (key : string) : Prop :=
  exists p, In p (projects data) /\ Project.id p = key.

Definition isPartnerId (data : AppState) (key : string) : Prop :=
  exists p, In p (partners data) /\ Partner.id p = key.

(** The records that fund an expense on [target] from one source: a
    project is funded from by a pair of records without partner, one on
    [target] and one on the source project; a partner by one record on
    [target] that names the partner; any other key by one record on
    [target] without partner. *)
Definition fundedBy (data : AppState) (target date : string)
           (source : string * Q) (records : list NewTransaction.t) : Prop :=
  let key := fst source in
  let amount := snd source in
  (isProjectId data key ->
   exists onTarget onSource,
     records = [onTarget; onSource]
     /\ expenseRecord target None amount date onTarget
     /\ expenseRecord key None amount date onSource)
  /\ (~ isProjectId data key -> isPartnerId data key ->
      exists t,
        records = [t] /\ expenseRecord target (Some key) amount date t)
  /\ (~ isProjectId data key -> ~ isPartnerId data key ->
      exists t, records = [t] /\ expenseRecord target None amount date t).

(** [records] are the records of the [sources], source after source. *)
Definition allocated (data : AppState) (target date : string)
           (sources : list (string * Q)) (records : list NewTransaction.t)
  : Prop :=
  exists groups,
    Forall2 (fundedBy data target date) sources groups
    /\ records = List.concat groups.

(** The transactions that successive [handleAddTransaction] calls append,
    the first identifier being the [n]-th draw. *)
Fixpoint stamp (randomId : nat -> string) (n : nat)
         (records : list NewTransaction.t) : list Transaction.t :=
  match records with
  | [] => []
  | t :: rest => NewTransaction.withId (randomId n) t :: stamp randomId (S n) rest
  end.

End AllocationSpec.

(** ** Vocabulary of the realtime properties *)

Module RealtimeSpec.

Definition payloadIsInsert {Row : Type} (payload : App.Payload Row) : bool :=
  match payload with
  | App.INSERT _ => true
  | _ => false
  end.

Definition isInsert (change : App.Change) : bool :=
  match change with
  | App.OnPartners payload => payloadIsInsert payload
  | App.OnProjects payload => payloadIsInsert payload
  | App.OnTransactions payload => payloadIsInsert payload
  end.

(** The id a payload refers to: that of the mapped [new] record, or
    [old.id]. *)
Definition payloadId {Row : Type} (rowId : Row -> string)
           (payload : App.Payload Row) : string :=
  match payload with
  | App.INSERT new | App.UPDATE new => rowId new
  | App.DELETE oldId => oldId
  end.

Definition recordId (change : App.Change) : string :=
  match change with
  | App.OnPartners payload => payloadId Partner.id payload
  | App.OnProjects payload =>
      payloadId (fun rec => Project.id (App.mapProject rec)) payload
  | App.OnTransactions payload =>
      payloadId (fun rec => Transaction.id (App.mapTransaction rec)) payload
  end.

(** The ids of the entity list a change event belongs to. *)
Definition localIds (change : App.Change) (snapshot : AppState) : list string :=
  match change with
  | App.OnPartners _ => map Partner.id (partners snapshot)
  | App.OnProjects _ => map Project.id (projects snapshot)
  | App.OnTransactions _ => map Transaction.id (transactions snapshot)
  end.

(** An UPDATE replaces by id: position by position, a record with the id of
    [record] becomes [record] and any other record stays. *)
Definition replacedById {Item : Type} (itemId : Item -> string) (record : Item)
           (before after : list Item) : Prop :=
  Forall2 (fun old new =>
             if String.eqb (itemId old) (itemId record)
             then new = record else new = old)
          before after.

(** A DELETE removes by id: the records left are those of [before] whose
    id is not [oldId]. *)
Definition removedById {Item : Type} (itemId : Item -> string) (oldId : string)
           (before after : list Item) : Prop :=
  forall item, In item after <-> In item before /\ itemId item <> oldId.

(** What an UPDATE event does to a snapshot: the list of its table is
    replaced by id, the two other lists are untouched. *)
Definition updatesById (change : App.Change) (prev next : AppState) : Prop :=
  match change with
  | App.OnPartners (App.UPDATE new) =>
      replacedById Partner.id new (partners prev) (partners next)
      /\ projects next = projects prev
      /\ transactions next = transactions prev
  | App.OnProjects (App.UPDATE new) =>
      replacedById Project.id (App.mapProject new)
                   (projects prev) (projects next)
      /\ partners next = partners prev
      /\ transactions next = transactions prev
  | App.OnTransactions (App.UPDATE new) =>
      replacedById Transaction.id (App.mapTransaction new)
                   (transactions prev) (transactions next)
      /\ partners next = partners prev
      /\ projects next = projects prev
  | _ => True
  end.

(** What a DELETE event does to a snapshot. *)
Definition deletesById (change : App.Change) (prev next : AppState) : Prop :=
  match change with
  | App.OnPartners (App.DELETE oldId) =>
      removedById Partner.id oldId (partners prev) (partners next)
      /\ projects next = projects prev
      /\ transactions next = transactions prev
  | App.OnProjects (App.DELETE oldId) =>
      removedById Project.id oldId (projects prev) (projects next)
      /\ partners next = partners prev
      /\ transactions next = transactions prev
  | App.OnTransactions (App.DELETE oldId) =>
      removedById Transaction.id oldId (transactions prev) (transactions next)
      /\ partners next = partners prev
      /\ projects next = projects prev
  | _ => True
  end.

End RealtimeSpec.

(** ** Sample data *)

Module Sample.

(** The fallback state of [App.tsx]. *)
Definition INITIAL_DATA : AppState :=
  mkAppState
    [ Partner.mk "p1" "คุณเอก" "👨‍💼" "#818CF8";
      Partner.mk "p2" "คุณโท" "👩‍💼" "#34D399";
      Partner.mk "p3" "คุณตรี" "👨‍💻" "#F472B6" ]
    [ Project.mk "proj1" "ร้านกาแฟ สาขา 1"
        "Renovate ตึกเก่าทำร้านกาแฟสไตล์ Loft" Project.active "2023-01-15" ]
    [ Transaction.mk "t1" "proj1" (Some "p1"%string) INVESTMENT 500000
        "2023-01-15" "เงินลงทุนก้อนแรก";
      Transaction.mk "t2" "proj1" (Some "p2"%string) INVESTMENT 300000
        "2023-01-16" "ร่วมทุน" ].

(** The same state with a second project and an expense paid from the
    pool. *)
Definition twoProjects : AppState :=
  mkAppState (partners INITIAL_DATA)
    (projects INITIAL_DATA
       ++ [ Project.mk "proj2" "สาขา 2" "" Project.planning "2023-06-01" ])
    (transactions INITIAL_DATA
       ++ [ Transaction.mk "t3" "proj1" None EXPENSE 2000 "2023-02-01"
              "ค่าวัสดุ" ]).

(** A supply of identifiers. *)
Definition ids (n : nat) : string :=
  match n with
  | O => "k3x9a"
  | 1%nat => "q7m2b"
  | 2%nat => "z1c8d"
  | _ => "w5e4f"
  end.

(** A blank creation form on project ["proj1"]. *)
Definition blank : Projects.Form :=
  Projects.mkForm (Some "proj1"%string) None EXPENSE None "" "" "2023-02-01"
                  false [].

(** Single source: [amount] paid from [source] (['' ] is the pool). *)
Definition single (amount : Q) (source : string) : Projects.Form :=
  Projects.mkForm (Some "proj1"%string) None EXPENSE (Some amount) source
                  "ค่าวัสดุ" "2023-02-01" false [].

(** Split mode: [amount] spread over [split]. *)
Definition split (amount : Q) (entries : list (string * option Q))
  : Projects.Form :=
  Projects.mkForm (Some "proj1"%string) None EXPENSE (Some amount) ""
                  "ค่าวัสดุ" "2023-02-01" true entries.

(** Editing transaction [editing] with a new amount and source. *)
Definition edit (editing : string) (amount : Q) (source : string)
  : Projects.Form :=
  Projects.mkForm (Some "proj1"%string) (Some editing) EXPENSE (Some amount)
                  source "ค่าวัสดุ" "2023-02-01" false [].

End Sample.

(** * Properties *)

(** ** Helper lemmas on the JavaScript primitives *)

Lemma gtb_true_iff (a b : Q) : Js.gtb a b = true <-> b < a.
Proof.
  unfold Js.gtb. rewrite negb_true_iff.
  split; intro H.
  - apply Qnot_le_lt. intro Hle. apply Qle_bool_iff in Hle. congruence.
  - destruct (Qle_bool a b) eqn:E; [|reflexivity].
    apply Qle_bool_iff in E. apply Qle_not_lt in E. contradiction.
Qed.

Lemma gtb_false_iff (a b : Q) : Js.gtb a b = false <-> a <= b.
Proof.
  unfold Js.gtb. rewrite negb_false_iff. apply Qle_bool_iff.
Qed.

Lemma gtb_compat (a b c : Q) : a == b -> Js.gtb a c = Js.gtb b c.
Proof.
  intro E. destruct (Js.gtb b c) eqn:Hb.
  - apply gtb_true_iff. apply gtb_true_iff in Hb. now rewrite E.
  - apply gtb_false_iff. apply gtb_false_iff in Hb. now rewrite E.
Qed.

Lemma TransactionType_eqb_eq (a b : TransactionType) :
  TransactionType_eqb a b = true <-> a = b.
Proof. destruct a, b; simpl; split; intro H; congruence. Qed.

(** ** Global totals *)

Section GlobalTotals.

Import Dashboard AggregationSpec.

(** The loop invariant of [Dashboard.stats]: each running total is its
    initial value plus the matching sum over the visited prefix. *)
Lemma visit_fold (l : list Transaction.t) : forall acc : Totals,
  accInvestment (fold_left visit l acc) ==
    accInvestment acc + sumWhere (isType INVESTMENT) l
                      + sumWhere isPartnerExpense l
  /\ accIncome (fold_left visit l acc) ==
       accIncome acc + sumWhere (isType INCOME) l
  /\ accExpense (fold_left visit l acc) ==
       accExpense acc + sumWhere (isType EXPENSE) l.
Proof.
  induction l as [|t l IH]; intro acc.
  - unfold sumWhere; simpl. repeat split; ring.
  - simpl fold_left.
    destruct (IH (visit acc t)) as (Hinv & Hinc & Hexp).
    split; [rewrite Hinv | split; [rewrite Hinc | rewrite Hexp]];
      clear IH Hinv Hinc Hexp;
      unfold sumWhere, visit, isPartnerExpense, isType; simpl filter;
      destruct (Transaction.type t); simpl;
      try destruct (Js.truthy (Transaction.partnerId t)); simpl; ring.
Qed.


End GlobalTotals.

(** ** Ownership shares *)

Section Shares.

Import PartnerSummary AggregationSpec DataModel.

Lemma sumWhere_cons (c : Transaction.t -> bool) (t : Transaction.t)
      (l : list Transaction.t) :
  sumWhere c (t :: l) ==
    (if c t then Transaction.amount t else 0) + sumWhere c l.
Proof.
  unfold sumWhere; simpl. destruct (c t); simpl; ring.
Qed.

(** A conditional [reduce] from the left is the filtered sum. *)
Lemma fold_left_cond_sum (c : Transaction.t -> bool) (l : list Transaction.t) :
  forall s0 : Q,
    fold_left (fun sum t => if c t then sum + Transaction.amount t else sum) l s0
    == s0 + sumWhere c l.
Proof.
  induction l as [|t l IH]; intro s0.
  - unfold sumWhere; simpl; ring.
  - simpl fold_left. rewrite IH, sumWhere_cons.
    destruct (c t); ring.
Qed.

Lemma fold_left_sum_filter (c : Transaction.t -> bool) (l : list Transaction.t) :
  forall s0 : Q,
    fold_left (fun sum t => sum + Transaction.amount t) (filter c l) s0
    == s0 + sumWhere c l.
Proof.
  induction l as [|t l IH]; intro s0.
  - unfold sumWhere; simpl; ring.
  - rewrite sumWhere_cons. simpl filter. destruct (c t).
    + simpl fold_left. rewrite IH. ring.
    + rewrite IH. ring.
Qed.

(** The transactions counted by [globalTotalInvestment]. *)
Lemma globalTotalInvestment_sum (data : AppState) :
  globalTotalInvestment data ==
    sumWhere (fun t => isType INVESTMENT t || isPartnerExpense t)
             (transactions data).
Proof.
  unfold globalTotalInvestment.
  rewrite <- (Qplus_0_l (sumWhere _ _)), <- fold_left_cond_sum.
  assert (E : forall (l : list Transaction.t) s0,
             fold_left
               (fun sum t =>
                  if TransactionType_eqb (Transaction.type t) INVESTMENT
                  then sum + Transaction.amount t
                  else if TransactionType_eqb (Transaction.type t) EXPENSE
                          && Js.truthy (Transaction.partnerId t)
                  then sum + Transaction.amount t
                  else sum) l s0
             = fold_left
                 (fun sum t =>
                    if isType INVESTMENT t || isPartnerExpense t
                    then sum + Transaction.amount t else sum) l s0).
  { induction l as [|t l IH]; intro s0; [reflexivity|].
    simpl. rewrite IH. unfold isPartnerExpense, isType.
    destruct (TransactionType_eqb (Transaction.type t) INVESTMENT);
      reflexivity. }
  rewrite E. reflexivity.
Qed.

Lemma globalPartnerInvested_sum (data : AppState) (p : Partner.t) :
  globalPartnerInvested data p ==
    sumWhere (isInvestedBy (Partner.id p)) (transactions data).
Proof.
  unfold globalPartnerInvested. rewrite fold_left_sum_filter.
  unfold sumWhere.
  rewrite (filter_ext (investedBy p) (isInvestedBy (Partner.id p)))
    by reflexivity.
  ring.
Qed.









End Shares.


(** Example 7 of the specification: shares of 62.5% and 37.5%. *)
Example shares_of_initial_data :
  exists a b c,
    PartnerSummary.sharePercents "all" Sample.INITIAL_DATA = [a; b; c]
    /\ a == 62.5 /\ b == 37.5 /\ c == 0.
Proof.
  do 3 eexists. split; [reflexivity|].
  repeat split; vm_compute; reflexivity.
Qed.

(** ** Sums in binary64 *)

Lemma nearest_wd (x y : Q) : x == y -> Js.nearest x = Js.nearest y.
Proof.
  intro H. unfold Js.nearest. now rewrite (Qred_complete x y H).
Qed.

(** Rounding depends on the value only, not on the fraction that denotes
    it. *)
Lemma toDouble_wd (x y : Q) : x == y -> Js.toDouble x = Js.toDouble y.
Proof.
  intro H. unfold Js.toDouble. now rewrite (nearest_wd x y H).
Qed.

Lemma ilog2_integer (n : Z) : (0 < n)%Z -> Js.ilog2 n 1 = Z.log2 n.
Proof.
  intro H. unfold Js.ilog2. change (Z.log2 1) with 0%Z. rewrite Z.sub_0_r.
  pose proof (Z.log2_nonneg n) as Hnn.
  destruct (Z.leb_spec 0 (Z.log2 n)); [|lia].
  rewrite Z.mul_1_l.
  destruct (Z.ltb_spec n (2 ^ Z.log2 n)); [|reflexivity].
  pose proof (Z.log2_spec n H). lia.
Qed.

Lemma roundEven_exact (k d : Z) : (0 < d)%Z -> Js.roundEven (k * d) d = k.
Proof.
  intro H. unfold Js.roundEven.
  rewrite Z.div_mul, Z.mod_mul by lia.
  change (2 * 0)%Z with 0%Z.
  destruct (Z.compare_spec 0 d); lia.
Qed.

Lemma Qred_inject_Z (z : Z) : Qred (inject_Z z) = inject_Z z.
Proof.
  unfold Qred, inject_Z.
  pose proof (Z.ggcd_gcd z 1) as Hg.
  pose proof (Z.ggcd_correct_divisors z 1) as Hd.
  destruct (Z.ggcd z 1) as [g [r1 r2]]. cbn [fst snd] in *.
  rewrite Z.gcd_1_r in Hg. subst g. destruct Hd as [H1 H2].
  rewrite Z.mul_1_l in H1, H2. now subst.
Qed.

(** The integers up to [2^53] in absolute value are doubles. *)
Lemma nearest_integer (z : Z) :
  (Z.abs z <= 2 ^ 53)%Z -> Js.nearest (inject_Z z) = inject_Z z.
Proof.
  intro Hz. unfold Js.nearest.
  rewrite Qred_inject_Z.
  cbn [Qnum Qden inject_Z].
  destruct (Z.eqb_spec (Z.abs z) 0) as [E|E].
  - assert (z = 0)%Z by lia. now subst.
  - set (n := Z.abs z) in *.
    assert (Hn : (0 < n)%Z) by lia.
    rewrite (ilog2_integer n Hn).
    assert (Hlog : (0 <= Z.log2 n <= 53)%Z).
    { split; [apply Z.log2_nonneg|].
      change 53%Z with (Z.log2 (2 ^ 53)). now apply Z.log2_le_mono. }
    assert (Hv : (if (0 <=? Z.max (Z.log2 n - 52) (-1074))%Z
                  then inject_Z
                         (Js.roundEven n (1 * 2 ^ Z.max (Z.log2 n - 52) (-1074))
                          * 2 ^ Z.max (Z.log2 n - 52) (-1074))
                  else Qred
                         (Js.roundEven
                            (n * 2 ^ (- Z.max (Z.log2 n - 52) (-1074))) 1
                          # Z.to_pos (2 ^ (- Z.max (Z.log2 n - 52) (-1074)))))
                 = inject_Z n).
    { rewrite Z.max_l by lia.
      destruct (Z.leb_spec 0 (Z.log2 n - 52)) as [Hge|Hlt].
      - rewrite Z.mul_1_l.
        assert (Hcase : (Z.log2 n = 52 \/ Z.log2 n = 53)%Z) by lia.
        destruct Hcase as [H52|H53].
        + rewrite H52. change (2 ^ (52 - 52))%Z with 1%Z.
          rewrite Z.mul_1_r. rewrite <- (Z.mul_1_r n) at 1.
          now rewrite roundEven_exact by lia.
        + rewrite H53. change (53 - 52)%Z with 1%Z. change (2 ^ 1)%Z with 2%Z.
          assert (Hn53 : (n = 2 ^ 52 * 2)%Z).
          { pose proof (Z.log2_spec n Hn) as Hs. rewrite H53 in Hs.
            change (2 ^ 52 * 2)%Z with (2 ^ 53)%Z. lia. }
          rewrite Hn53 at 1. rewrite roundEven_exact by lia.
          now rewrite <- Hn53.
      - set (k := (- (Z.log2 n - 52))%Z).
        assert (Hk : (0 < 2 ^ k)%Z) by (apply Z.pow_pos_nonneg; lia).
        rewrite <- (Z.mul_1_r (n * 2 ^ k)), roundEven_exact by lia.
        rewrite <- (Qred_inject_Z n).
        apply Qred_complete. unfold Qeq. cbn [Qnum Qden inject_Z].
        rewrite Z2Pos.id by assumption. ring. }
    rewrite Hv.
    destruct (Z.ltb_spec z 0) as [Hneg|Hpos]; unfold inject_Z, Qopp;
      cbn [Qnum Qden]; f_equal; lia.
Qed.

Lemma representable_wd (x y : Q) :
  x == y -> AllocationSpec.representable x -> AllocationSpec.representable y.
Proof.
  intros E (r & Hr & Er). exists r. split.
  - rewrite <- Hr. symmetry. now apply toDouble_wd.
  - now rewrite Er.
Qed.

Lemma representable_integer (z : Z) :
  (Z.abs z <= 2 ^ 53)%Z -> AllocationSpec.representable (inject_Z z).
Proof.
  intro Hz. exists (inject_Z z). split; [|reflexivity].
  unfold Js.toDouble. rewrite nearest_integer by assumption.
  change (Qabs (inject_Z z)) with (inject_Z (Z.abs z)).
  destruct (Qle_bool (inject_Z (2 ^ 1024)) (inject_Z (Z.abs z))) eqn:E;
    [|reflexivity].
  apply Qle_bool_iff in E. rewrite <- Zle_Qle in E.
  assert (2 ^ 53 < 2 ^ 1024)%Z by (apply Z.pow_lt_mono_r; lia).
  lia.
Qed.

(** A running sum whose partial sums are doubles is the exact sum. *)
Lemma fold_add_exact (values : list Q) : forall x s : Q,
  x == s ->
  AllocationSpec.sumsRepresentable s values ->
  exists t,
    fold_left Js.add values (Js.Finite x) = Js.Finite t
    /\ t == s + AggregationSpec.sumQ values.
Proof.
  induction values as [|v values IH]; intros x s E Hrep.
  - exists x. split; [reflexivity|].
    unfold AggregationSpec.sumQ; cbn [fold_right]. rewrite E. ring.
  - destruct Hrep as [(r & Hr & Er) Hrest].
    destruct (IH r (s + v) Er Hrest) as (t & Ht & Et).
    exists t. split.
    + cbn [fold_left Js.add].
      rewrite (toDouble_wd (x + v) (s + v)) by now rewrite E.
      now rewrite Hr.
    + rewrite Et. unfold AggregationSpec.sumQ; cbn [fold_right]. ring.
Qed.

Lemma calculateSplitTotal_values (f : Projects.Form) :
  Projects.calculateSplitTotal f =
    fold_left Js.add (AllocationSpec.parsedValues (Projects.splitAmounts f))
              (Js.Finite 0).
Proof.
  unfold Projects.calculateSplitTotal, AllocationSpec.parsedValues.
  generalize (Js.Finite 0).
  induction (Projects.splitAmounts f) as [|e l IH]; intro acc;
    [reflexivity|apply IH].
Qed.

(** When no partial sum is rounded, [calculateSplitTotal] is the sum of the
    parsed value of every entry. *)
Lemma calculateSplitTotal_exact (f : Projects.Form) :
  AllocationSpec.sumsRepresentable 0
    (AllocationSpec.parsedValues (Projects.splitAmounts f)) ->
  exists t,
    Projects.calculateSplitTotal f = Js.Finite t
    /\ t == AllocationSpec.parsedTotal (Projects.splitAmounts f).
Proof.
  intro Hrep. rewrite calculateSplitTotal_values.
  destruct (fold_add_exact _ 0 0 (Qeq_refl 0) Hrep) as (t & Ht & Et).
  exists t. split; [assumption|].
  rewrite Et. unfold AllocationSpec.parsedTotal, AllocationSpec.parsedValues.
  ring.
Qed.

(** Without rounding the validation compares the exact difference with
    the tolerance. *)
Lemma validation_exact (f : Projects.Form) (A : Q) :
  AllocationSpec.exactReconciliation (Projects.splitAmounts f) A ->
  Js.absGt (Js.sub (Projects.calculateSplitTotal f) A) 1 =
    Js.gtb (Qabs (AllocationSpec.parsedTotal (Projects.splitAmounts f) - A)) 1.
Proof.
  intros [Hsums (r & Hr & Er)].
  destruct (calculateSplitTotal_exact f Hsums) as (t & Ht & Et).
  rewrite Ht. cbn [Js.sub].
  rewrite (toDouble_wd (t - A)
             (AllocationSpec.parsedTotal (Projects.splitAmounts f) - A))
    by now rewrite Et.
  rewrite Hr. cbn [Js.absGt]. apply gtb_compat. now rewrite Er.
Qed.

Lemma sumsRepresentable_integers (values : list Q) :
  forall (zs : list Z) (s : Q) (z0 bound : Z),
    Forall2 (fun v z => v == inject_Z z) values zs ->
    s == inject_Z z0 ->
    (Z.abs z0 + fold_right (fun z total => Z.abs z + total) bound zs
     <= 2 ^ 53)%Z ->
    (0 <= bound)%Z ->
    AllocationSpec.sumsRepresentable s values
    /\ exists total,
         s + AggregationSpec.sumQ values == inject_Z total
         /\ (Z.abs total + bound <= 2 ^ 53)%Z.
Proof.
  induction values as [|v values IH]; intros zs s z0 bound Hall Es Hb Hpos;
    inversion Hall as [|? z ? zs' Ev Hall']; subst.
  - split; [exact I|]. exists z0. split.
    + unfold AggregationSpec.sumQ; cbn [fold_right]. rewrite Es. ring.
    + cbn [fold_right] in Hb. lia.
  - cbn [fold_right] in Hb.
    assert (Esv : s + v == inject_Z (z0 + z)).
    { rewrite Es, Ev, inject_Z_plus. reflexivity. }
    destruct (IH zs' (s + v) (z0 + z)%Z bound Hall' Esv) as [Hrep Htot];
      [lia|assumption|].
    split.
    + split; [|assumption].
      apply (representable_wd (inject_Z (z0 + z))); [now symmetry|].
      apply representable_integer.
      assert (0 <= fold_right (fun z total => Z.abs z + total) bound zs')%Z.
      { clear -Hpos. induction zs'; cbn [fold_right]; lia. }
      lia.
    + destruct Htot as (total & Et & Hbt). exists total. split; [|assumption].
      rewrite <- Et. unfold AggregationSpec.sumQ; cbn [fold_right]. ring.
Qed.

(** Whole amounts of moderate size reconcile without rounding. *)
Lemma wholeAmounts_exact (split : list (string * option Q)) (A : Q) :
  AllocationSpec.wholeAmounts split A ->
  AllocationSpec.exactReconciliation split A.
Proof.
  intros (zs & a & Hall & Ea & Hb).
  destruct (sumsRepresentable_integers _ zs 0 0%Z (Z.abs a) Hall
              (Qeq_refl 0)) as [Hrep (total & Et & Hbt)];
    [cbn [Z.abs]; lia|lia|].
  split; [assumption|].
  apply (representable_wd (inject_Z (total - a))).
  - unfold AllocationSpec.parsedTotal.
    change (map (fun entry => Js.orZero (Js.parseFloat (snd entry))) split)
      with (AllocationSpec.parsedValues split).
    rewrite Ea. unfold Zminus. rewrite inject_Z_plus, inject_Z_opp, <- Et.
    ring.
  - apply representable_integer. lia.
Qed.

(** ** The transaction form and its callbacks *)

Section Allocation.

Import Projects AllocationSpec.

Variable randomId : nat -> string.

(** The function passed as [onUpdateTransaction]. *)
Variable onUpdateTransaction : Transaction.t -> AppState -> AppState.

(** Running calls of [onAddTransaction] appends one stamped transaction per
    call. *)
Lemma runCalls_adds (records : list NewTransaction.t) : forall s : App.Session,
  App.runCalls randomId onUpdateTransaction (map OnAddTransaction records) s =
    App.mkSession
      (App.withTransactions (App.data s)
         (transactions (App.data s) ++ stamp randomId (App.drawn s) records))
      (App.drawn s + List.length records).
Proof.
  induction records as [|t records IH]; intros [[ps pj ts] n].
  - simpl. unfold App.withTransactions; simpl.
    now rewrite app_nil_r, Nat.add_0_r.
  - simpl. rewrite IH. unfold App.withTransactions; simpl.
    now rewrite <- app_assoc, Nat.add_succ_r.
Qed.

Lemma submitCreate_added (data : AppState) (f : Form) (selected : string)
      (sources : list (string * Q)) :
  added (Submit (submitCreate data f selected sources)) =
    flat_map (processSource data f selected) sources.
Proof.
  unfold added, submitCreate; simpl.
  induction (flat_map (processSource data f selected) sources) as [|t l IH];
    simpl; [reflexivity|now rewrite IH].
Qed.

(** A submission in creation mode only calls [onAddTransaction]. *)
Lemma submitNew_calls (data : AppState) (f : Form) (selected : string)
      (totalAmount : Q) :
  callsOf (submitNew data f selected totalAmount) =
    map OnAddTransaction (added (submitNew data f selected totalAmount)).
Proof.
  unfold submitNew.
  destruct (isSplitMode f);
    [destruct (Js.absGt _ 1); [reflexivity|]|];
    now rewrite submitCreate_added.
Qed.

(** A rejected submission leaves the session as it is. *)
Lemma rejected_unchanged (s : App.Session) (f : Form) :
  rejected (handleFormSubmit (App.data s) f) = true ->
  App.submitForm randomId onUpdateTransaction f s = s.
Proof.
  intro H. unfold App.submitForm.
  destruct (selectedProject (App.data s) f); [|reflexivity].
  destruct (handleFormSubmit (App.data s) f); try discriminate; reflexivity.
Qed.

(** A split request in creation mode whose computed total is off by more
    than the tolerance ends in the alert. *)
Lemma split_alert (data : AppState) (f : Form) (A : Q) :
  isSplitMode f = true ->
  Js.truthy (editingId f) = false ->
  transAmount f = Some A ->
  Js.absGt (Js.sub (calculateSplitTotal f) A) 1 = true ->
  rejected (handleFormSubmit data f) = true
  /\ callsOf (handleFormSubmit data f) = [].
Proof.
  intros Hsplit Hedit Hamount Hgt.
  assert (Hnew : forall selected, submitNew data f selected A = Alert).
  { intro selected. unfold submitNew. now rewrite Hsplit, Hgt. }
  unfold handleFormSubmit. rewrite Hamount.
  destruct (selectedProjectId f) as [selected|]; [|now split].
  destruct (Js.truthyStr selected); simpl; [|now split].
  destruct (editingId f) as [editing|]; simpl in Hedit.
  - rewrite Hedit, Hnew. now split.
  - rewrite Hnew. now split.
Qed.

(** C3, amended. A split request (creation mode) is rejected, with no
    callback call and the session, hence the transaction list, unchanged,
    whenever the difference that the handler computes in binary64 exceeds 1
    in absolute value. This is the case whenever the sub-amounts add up to a
    value that differs from the requested amount by strictly more than 1 and
    the reconciliation involves no rounding, as with whole amounts whose
    absolute values add up to at most 2^53. *)
Theorem split_mismatch_rejected (s : App.Session) (f : Form) (A : Q) :
  isSplitMode f = true ->
  Js.truthy (editingId f) = false ->
  transAmount f = Some A ->
  Js.absGt (Js.sub (calculateSplitTotal f) A) 1 = true
  \/ (exactReconciliation (splitAmounts f) A
      /\ 1 < Qabs (parsedTotal (splitAmounts f) - A))
  \/ (wholeAmounts (splitAmounts f) A
      /\ 1 < Qabs (parsedTotal (splitAmounts f) - A)) ->
  rejected (handleFormSubmit (App.data s) f) = true
  /\ callsOf (handleFormSubmit (App.data s) f) = []
  /\ App.submitForm randomId onUpdateTransaction f s = s.
Proof.
  intros Hsplit Hedit Hamount Hdiff.
  assert (Hgt : Js.absGt (Js.sub (calculateSplitTotal f) A) 1 = true).
  { destruct Hdiff as [H|[[Hexact H]|[Hwhole H]]]; [exact H| |].
    - rewrite validation_exact by assumption. now apply gtb_true_iff.
    - rewrite validation_exact by now apply wholeAmounts_exact.
      now apply gtb_true_iff. }
  destruct (split_alert (App.data s) f A Hsplit Hedit Hamount Hgt)
    as [Hrej Hcalls].
  repeat split; try assumption.
  now apply rejected_unchanged.
Qed.

(** *** The sources of a split *)

Lemma set_fresh {V : Type} (k : string) (v : V) (obj : list (string * V)) :
  ~ In k (map fst obj) -> Js.set k v obj = obj ++ [(k, v)].
Proof.
  induction obj as [|[k' v'] obj IH]; intro Hfresh; simpl; [reflexivity|].
  destruct (String.eqb_spec k' k) as [->|_].
  - exfalso. apply Hfresh. now left.
  - rewrite IH; [reflexivity|]. intro H. apply Hfresh. now right.
Qed.

Lemma set_In {V : Type} (k : string) (v : V) (obj : list (string * V))
      (e : string * V) :
  In e (Js.set k v obj) -> e = (k, v) \/ In e obj.
Proof.
  induction obj as [|[k' v'] obj IH]; simpl.
  - intros [<-|[]]. now left.
  - destruct (String.eqb_spec k' k) as [->|_]; simpl.
    + intros [<-|H]; [now left|right; now right].
    + intros [<-|H]; [right; now left|].
      destruct (IH H) as [->|H']; [now left|right; now right].
Qed.

(** An entry that is not strictly positive (empty, zero or negative) leaves
    [sourcesToProcess] as it is. *)
Lemma collectSource_skip (sources : list (string * Q)) (key : string)
      (val : option Q) :
  (forall amt, val = Some amt -> amt <= 0) ->
  collectSource sources (key, val) = sources.
Proof.
  intro H. unfold collectSource; simpl.
  destruct val as [amt|]; simpl; [|reflexivity].
  assert (E : Js.gtb amt 0 = false) by (apply gtb_false_iff; now apply H).
  now rewrite E.
Qed.

Lemma positiveEntries_keys (l : list (string * option Q)) (k : string) :
  In k (map fst (positiveEntries l)) -> In k (map fst l).
Proof.
  induction l as [|[k' v] l IH]; simpl; [auto|].
  rewrite map_app, in_app_iff. intros [H|H]; [|right; now apply IH].
  destruct v as [amt|]; [destruct (Js.gtb amt 0)|]; simpl in H;
    try contradiction.
  destruct H as [<-|[]]. now left.
Qed.

(** A strictly positive entry of the split is one of the positive
    entries. *)
Lemma positiveEntries_In (l : list (string * option Q)) (k : string)
      (a : Q) :
  In (k, Some a) l -> 0 < a -> In (k, a) (positiveEntries l).
Proof.
  intros Hin Hpos. unfold positiveEntries. apply in_flat_map.
  exists (k, Some a). split; [assumption|]. cbn [fst snd].
  assert (E : Js.gtb a 0 = true) by now apply gtb_true_iff.
  rewrite E. now left.
Qed.

(** On an object (keys are unique) the loop keeps, in order, the entries
    that are strictly positive. *)
Lemma collect_positive (l : list (string * option Q)) :
  forall acc : list (string * Q),
    NoDup (map fst l) ->
    (forall k, In k (map fst acc) -> ~ In k (map fst l)) ->
    fold_left collectSource l acc = acc ++ positiveEntries l.
Proof.
  induction l as [|[k v] l IH]; intros acc Hnd Hdisj.
  - simpl. now rewrite app_nil_r.
  - simpl in Hnd. inversion Hnd as [|? ? Hk Hnd']; subst.
    simpl fold_left. unfold collectSource at 2. simpl.
    destruct v as [amt|]; simpl;
      [destruct (Js.gtb amt 0) eqn:Hgt|]; simpl.
    + rewrite set_fresh.
      * rewrite IH; [now rewrite <- app_assoc|assumption|].
        intros k'. rewrite map_app, in_app_iff. simpl.
        intros [H|[<-|[]]]; [|assumption].
        intro Hin. apply (Hdisj k' H). now right.
      * intro H. apply (Hdisj k H). now left.
    + apply IH; [assumption|].
      intros k' H Hin. apply (Hdisj k' H). now right.
    + apply IH; [assumption|].
      intros k' H Hin. apply (Hdisj k' H). now right.
Qed.

Lemma splitSources_positive (f : Form) :
  NoDup (map fst (splitAmounts f)) ->
  splitSources f = positiveEntries (splitAmounts f).
Proof.
  intro Hnd. unfold splitSources.
  rewrite collect_positive; [reflexivity|assumption|].
  intros k [].
Qed.

(** Whatever the keys, a source kept by the loop is a strictly positive
    entry of the split. *)
Lemma collect_sound (full l : list (string * option Q)) :
  forall acc : list (string * Q),
    incl l full ->
    (forall k a, In (k, a) acc -> 0 < a /\ In (k, Some a) full) ->
    forall k a, In (k, a) (fold_left collectSource l acc) ->
                0 < a /\ In (k, Some a) full.
Proof.
  induction l as [|[k' v] l IH]; intros acc Hincl Hacc k a; simpl.
  - apply Hacc.
  - apply IH.
    + intros e He. apply Hincl. now right.
    + intros k0 a0. unfold collectSource; simpl.
      destruct v as [amt|]; simpl; [|apply Hacc].
      destruct (Js.gtb amt 0) eqn:Hgt; [|apply Hacc].
      intro H. apply set_In in H. destruct H as [E|H]; [|now apply Hacc].
      inversion E; subst. split.
      * now apply gtb_true_iff.
      * apply Hincl. now left.
Qed.

Lemma splitSources_sound (f : Form) (k : string) (a : Q) :
  In (k, a) (splitSources f) -> 0 < a /\ In (k, Some a) (splitAmounts f).
Proof.
  apply (collect_sound (splitAmounts f)).
  - apply incl_refl.
  - intros ? ? [].
Qed.

(** *** The records of a funding source *)

Lemma isProjectId_existsb (data : AppState) (key : string) :
  existsb (fun p => String.eqb (Project.id p) key) (projects data) = true
  <-> isProjectId data key.
Proof.
  rewrite existsb_exists. unfold isProjectId.
  split; intros (p & Hin & Hp); exists p; split; try assumption.
  - now apply String.eqb_eq.
  - now apply String.eqb_eq.
Qed.

Lemma isPartnerId_existsb (data : AppState) (key : string) :
  existsb (fun p => String.eqb (Partner.id p) key) (partners data) = true
  <-> isPartnerId data key.
Proof.
  rewrite existsb_exists. unfold isPartnerId.
  split; intros (p & Hin & Hp); exists p; split; try assumption.
  - now apply String.eqb_eq.
  - now apply String.eqb_eq.
Qed.

(** [processSource] records a source as [fundedBy] describes. *)
Lemma processSource_fundedBy (data : AppState) (f : Form) (P : string)
      (source : string * Q) :
  fundedBy data P (transDate f) source (processSource data f P source).
Proof.
  unfold fundedBy, processSource.
  destruct (existsb (fun p => String.eqb (Project.id p) (fst source))
                    (projects data)) eqn:Hproj;
    [|destruct (existsb (fun p => String.eqb (Partner.id p) (fst source))
                        (partners data)) eqn:Hpart].
  - apply isProjectId_existsb in Hproj.
    split; [|split]; [|intros Hn; contradiction|intros Hn; contradiction].
    intros _. eexists _, _. split; [reflexivity|].
    split; repeat split.
  - apply isPartnerId_existsb in Hpart.
    assert (Hnp : ~ isProjectId data (fst source)).
    { intro H. apply isProjectId_existsb in H. congruence. }
    split; [|split]; [intro H; contradiction| |intros _ Hn; contradiction].
    intros _ _. eexists. split; [reflexivity|]. repeat split.
  - assert (Hnp : ~ isProjectId data (fst source)).
    { intro H. apply isProjectId_existsb in H. congruence. }
    assert (Hnq : ~ isPartnerId data (fst source)).
    { intro H. apply isPartnerId_existsb in H. congruence. }
    split; [|split]; [intro H; contradiction|intros _ H; contradiction|].
    intros _ _. eexists. split; [reflexivity|]. repeat split.
Qed.

Lemma processSources_allocated (data : AppState) (f : Form) (P : string)
      (sources : list (string * Q)) :
  allocated data P (transDate f) sources
            (flat_map (processSource data f P) sources).
Proof.
  exists (map (processSource data f P) sources). split.
  - induction sources as [|source sources IH]; constructor;
      [apply processSource_fundedBy|assumption].
  - apply flat_map_concat_map.
Qed.

(** [calculateSplitTotal] adds the parsed value of every entry, in order:
    the entry added last sets the total to the sum of the total so far and
    its parsed value, whatever its sign. *)
Lemma calculateSplitTotal_last (f g : Form) (key : string) (val : option Q) :
  splitAmounts g = splitAmounts f ++ [(key, val)] ->
  calculateSplitTotal g =
    Js.add (calculateSplitTotal f) (Js.orZero (Js.parseFloat val)).
Proof.
  intro H. unfold calculateSplitTotal. rewrite H, map_app, fold_left_app.
  reflexivity.
Qed.

(** *** Conservation *)

Lemma sumQ_app (l1 l2 : list Q) :
  AggregationSpec.sumQ (l1 ++ l2)
  == AggregationSpec.sumQ l1 + AggregationSpec.sumQ l2.
Proof.
  induction l1 as [|x l1 IH];
    unfold AggregationSpec.sumQ; cbn [app fold_right]; [ring|].
  unfold AggregationSpec.sumQ in IH. rewrite IH. ring.
Qed.

Lemma expenseOn_app (P : string) (l1 l2 : list NewTransaction.t) :
  expenseOn P (l1 ++ l2) == expenseOn P l1 + expenseOn P l2.
Proof.
  unfold expenseOn. rewrite filter_app, map_app. apply sumQ_app.
Qed.

(** One funding source records its amount once on the target project,
    provided the source is not the target project itself. *)
Lemma expenseOn_processSource (data : AppState) (f : Form) (P k : string)
      (a : Q) :
  k <> P -> expenseOn P (processSource data f P (k, a)) == a.
Proof.
  intro Hne. unfold processSource, expenseOn; simpl.
  assert (Ek : String.eqb k P = false) by now apply String.eqb_neq.
  destruct (existsb _ (projects data)); [|destruct (existsb _ (partners data))];
    simpl; rewrite String.eqb_refl; simpl; try rewrite Ek; simpl;
    unfold AggregationSpec.sumQ; simpl; ring.
Qed.

Lemma expenseOn_sources (data : AppState) (f : Form) (P : string)
      (sources : list (string * Q)) :
  ~ In P (map fst sources) ->
  expenseOn P (flat_map (processSource data f P) sources)
  == AggregationSpec.sumQ (map snd sources).
Proof.
  induction sources as [|[k a] sources IH]; intro Hni.
  - reflexivity.
  - cbn [flat_map map]. rewrite expenseOn_app, expenseOn_processSource, IH.
    + reflexivity.
    + intro H. apply Hni. now right.
    + intros ->. apply Hni. now left.
Qed.

Lemma parsedTotal_cons (k : string) (v : option Q)
      (l : list (string * option Q)) :
  parsedTotal ((k, v) :: l) ==
    Js.orZero (Js.parseFloat v) + parsedTotal l.
Proof. reflexivity. Qed.

(** Without negative sub-amounts the kept entries add up to the total of
    the validation. *)
Lemma positiveEntries_total (l : list (string * option Q)) :
  (forall k a, In (k, Some a) l -> 0 <= a) ->
  AggregationSpec.sumQ (map snd (positiveEntries l)) == parsedTotal l.
Proof.
  induction l as [|[k v] l IH]; intro Hnn; [reflexivity|].
  rewrite parsedTotal_cons.
  change (positiveEntries ((k, v) :: l))
    with (match v with
          | Some amt => if Js.gtb amt 0 then [(k, amt)] else []
          | None => []
          end ++ positiveEntries l).
  rewrite map_app, sumQ_app, IH
    by (intros k' a' H; apply (Hnn k'); now right).
  destruct v as [amt|]; cbn [Js.parseFloat Js.orZero].
  - destruct (Js.gtb amt 0) eqn:Hgt;
      unfold AggregationSpec.sumQ at 1; cbn [map snd fold_right].
    + ring.
    + apply gtb_false_iff in Hgt.
      assert (0 <= amt) by (apply (Hnn k); now left).
      assert (E : amt == 0) by now apply Qle_antisym.
      rewrite E. ring.
  - unfold AggregationSpec.sumQ at 1; cbn [map fold_right]. ring.
Qed.

(** *** Creation requests *)

(** In creation mode the handler either returns at once or runs the
    creation logic on the selected project and the parsed amount. *)
Lemma creation_cases (data : AppState) (f : Form) :
  Js.truthy (editingId f) = false ->
  (handleFormSubmit data f = Return
   /\ (Js.truthy (selectedProjectId f) = false \/ transAmount f = None))
  \/ exists P A,
       selectedProjectId f = Some P /\ Js.truthyStr P = true
       /\ transAmount f = Some A
       /\ handleFormSubmit data f = submitNew data f P A.
Proof.
  intro Hedit. unfold handleFormSubmit.
  destruct (selectedProjectId f) as [P|]; [|left; split; [reflexivity|now left]].
  destruct (transAmount f) as [A|]; [|left; split; [reflexivity|now right]].
  destruct (Js.truthyStr P) eqn:HP; simpl.
  - right. exists P, A. repeat split; try assumption.
    destruct (editingId f) as [editing|]; simpl in Hedit;
      [now rewrite Hedit|reflexivity].
  - left. split; [reflexivity|]. left. simpl. assumption.
Qed.

Lemma creation_submitNew (data : AppState) (f : Form) (P : string) (A : Q) :
  Js.truthy (editingId f) = false ->
  selectedProjectId f = Some P -> Js.truthyStr P = true ->
  transAmount f = Some A ->
  handleFormSubmit data f = submitNew data f P A.
Proof.
  intros Hedit Hsel HP Ham. unfold handleFormSubmit.
  rewrite Hsel, Ham, HP. cbn [negb].
  destruct (editingId f) as [editing|]; simpl in Hedit;
    [now rewrite Hedit|reflexivity].
Qed.

Lemma creation_calls (data : AppState) (f : Form) :
  Js.truthy (editingId f) = false ->
  callsOf (handleFormSubmit data f) =
    map OnAddTransaction (added (handleFormSubmit data f)).
Proof.
  intro Hedit.
  destruct (creation_cases data f Hedit) as [[-> _]|(P & A & _ & _ & _ & ->)];
    [reflexivity|apply submitNew_calls].
Qed.

(** A submission that hands [records] to [onAddTransaction] appends them
    all, stamped, to the ledger. *)
Lemma submit_appends (s : App.Session) (f : Form)
      (records : list NewTransaction.t) :
  selectedProject (App.data s) f <> None ->
  handleFormSubmit (App.data s) f = Submit (map OnAddTransaction records) ->
  App.submitForm randomId onUpdateTransaction f s =
    App.mkSession
      (App.withTransactions (App.data s)
         (transactions (App.data s) ++ stamp randomId (App.drawn s) records))
      (App.drawn s + List.length records).
Proof.
  intros Hfound Hres. unfold App.submitForm.
  destruct (selectedProject (App.data s) f); [|congruence].
  rewrite Hres. apply runCalls_adds.
Qed.

(** The single-source branch: one source, keyed by the chosen partner or
    project or by ["POOL"], carrying the requested amount. *)
Lemma single_submit (data : AppState) (f : Form) (P : string) (A : Q) :
  isSplitMode f = false ->
  Js.truthy (editingId f) = false ->
  selectedProjectId f = Some P -> Js.truthyStr P = true ->
  transAmount f = Some A ->
  handleFormSubmit data f =
    Submit (map OnAddTransaction
              (processSource data f P
                 (if Js.truthyStr (transPartner f) then transPartner f
                  else "POOL"%string, A))).
Proof.
  intros Hmode Hedit Hsel HP Ham.
  rewrite (creation_submitNew data f P A) by assumption.
  unfold submitNew, submitCreate. rewrite Hmode. cbn [flat_map].
  now rewrite app_nil_r.
Qed.

(** The split branch once the validation has passed. *)
Lemma split_submit (data : AppState) (f : Form) (P : string) (A : Q) :
  isSplitMode f = true ->
  Js.truthy (editingId f) = false ->
  selectedProjectId f = Some P -> Js.truthyStr P = true ->
  transAmount f = Some A ->
  NoDup (map fst (splitAmounts f)) ->
  Js.absGt (Js.sub (calculateSplitTotal f) A) 1 = false ->
  handleFormSubmit data f =
    Submit (map OnAddTransaction
              (flat_map (processSource data f P)
                        (positiveEntries (splitAmounts f)))).
Proof.
  intros Hmode Hedit Hsel HP Ham Hnd Hok.
  rewrite (creation_submitNew data f P A) by assumption.
  unfold submitNew, submitCreate. rewrite Hmode, Hok.
  now rewrite splitSources_positive.
Qed.

Lemma added_submit (records : list NewTransaction.t) :
  added (Submit (map OnAddTransaction records)) = records.
Proof.
  unfold added, callsOf.
  induction records as [|t l IH]; simpl; [reflexivity|now rewrite IH].
Qed.

(** Conservation where it holds: a validated split request without negative
    sub-amounts, whose target project is not one of its own sources and
    whose reconciliation involves no rounding, records on the target
    project the requested amount up to the tolerance. *)
Lemma split_conservation_nonnegative (data : AppState) (f : Form)
      (P : string) (A : Q) :
  isSplitMode f = true ->
  Js.truthy (editingId f) = false ->
  selectedProjectId f = Some P ->
  transAmount f = Some A ->
  NoDup (map fst (splitAmounts f)) ->
  ~ In P (map fst (splitAmounts f)) ->
  (forall k a, In (k, Some a) (splitAmounts f) -> 0 <= a) ->
  exactReconciliation (splitAmounts f) A ->
  rejected (handleFormSubmit data f) = false ->
  Qabs (expenseOn P (added (handleFormSubmit data f)) - A) <= 1.
Proof.
  intros Hsplit Hedit Hsel Hamount Hnd Hself Hnn Hexact Hok.
  assert (Hnew : handleFormSubmit data f = submitNew data f P A
                 \/ handleFormSubmit data f = Return).
  { unfold handleFormSubmit. rewrite Hsel, Hamount.
    destruct (Js.truthyStr P); simpl; [|now right].
    destruct (editingId f) as [editing|]; simpl in Hedit;
      [rewrite Hedit|]; now left. }
  destruct Hnew as [Hnew|Hret]; [|rewrite Hret in Hok; discriminate].
  rewrite Hnew in *. unfold submitNew in *. rewrite Hsplit in *.
  rewrite validation_exact in * by assumption.
  destruct (Js.gtb (Qabs (parsedTotal (splitAmounts f) - A)) 1) eqn:Hgt;
    [discriminate|].
  apply gtb_false_iff in Hgt.
  rewrite submitCreate_added, splitSources_positive by assumption.
  rewrite expenseOn_sources, positiveEntries_total; try assumption.
  intro H. apply Hself. now apply positiveEntries_keys.
Qed.

(** C4, amended. For every creation request: with no selected project or an
    empty amount the handler returns at once and nothing changes; any
    rejected request leaves the session unchanged. The handler examines
    neither the sign of the amount nor whether the selected project is in
    the project list: a single-source request on any non-empty project id
    with any amount [A], negative or zero included, is not rejected, and
    hands over exactly the records of its one source with amount [A]. A
    split request (on an object, whose keys are distinct) is either
    rejected by the tolerance check with nothing changed, or hands over
    exactly the records of all its strictly positive entries. Whatever is
    handed over is appended entirely to the ledger. *)
Theorem creation_all_or_nothing (s : App.Session) (f : Form) :
  Js.truthy (editingId f) = false ->
  (Js.truthy (selectedProjectId f) = false \/ transAmount f = None ->
   handleFormSubmit (App.data s) f = Return
   /\ App.submitForm randomId onUpdateTransaction f s = s)
  /\ (rejected (handleFormSubmit (App.data s) f) = true ->
      App.submitForm randomId onUpdateTransaction f s = s)
  /\ (forall P A,
        selectedProjectId f = Some P -> Js.truthyStr P = true ->
        transAmount f = Some A ->
        isSplitMode f = false ->
        exists records,
          handleFormSubmit (App.data s) f =
            Submit (map OnAddTransaction records)
          /\ allocated (App.data s) P (transDate f)
               [(if Js.truthyStr (transPartner f) then transPartner f
                 else "POOL"%string, A)]
               records
          /\ (selectedProject (App.data s) f <> None ->
              App.submitForm randomId onUpdateTransaction f s =
                App.mkSession
                  (App.withTransactions (App.data s)
                     (transactions (App.data s)
                        ++ stamp randomId (App.drawn s) records))
                  (App.drawn s + List.length records)))
  /\ (forall P A,
        selectedProjectId f = Some P -> Js.truthyStr P = true ->
        transAmount f = Some A ->
        isSplitMode f = true ->
        NoDup (map fst (splitAmounts f)) ->
        (Js.absGt (Js.sub (calculateSplitTotal f) A) 1 = true
         /\ handleFormSubmit (App.data s) f = Alert
         /\ App.submitForm randomId onUpdateTransaction f s = s)
        \/ (Js.absGt (Js.sub (calculateSplitTotal f) A) 1 = false
            /\ exists records,
                 handleFormSubmit (App.data s) f =
                   Submit (map OnAddTransaction records)
                 /\ allocated (App.data s) P (transDate f)
                      (positiveEntries (splitAmounts f)) records
                 /\ (selectedProject (App.data s) f <> None ->
                     App.submitForm randomId onUpdateTransaction f s =
                       App.mkSession
                         (App.withTransactions (App.data s)
                            (transactions (App.data s)
                               ++ stamp randomId (App.drawn s) records))
                         (App.drawn s + List.length records)))).
Proof.
  intro Hedit.
  assert (Hmissing : Js.truthy (selectedProjectId f) = false
                     \/ transAmount f = None ->
                     handleFormSubmit (App.data s) f = Return).
  { intros [Hsel|Ham]; unfold handleFormSubmit.
    - destruct (selectedProjectId f) as [P|]; [|reflexivity].
      simpl in Hsel. rewrite Hsel.
      destruct (transAmount f); reflexivity.
    - rewrite Ham. destruct (selectedProjectId f); reflexivity. }
  split; [|split; [apply rejected_unchanged|split]].
  - intro H. split; [now apply Hmissing|].
    apply rejected_unchanged. now rewrite Hmissing.
  - intros P A Hsel HP Ham Hmode.
    pose proof (single_submit (App.data s) f P A Hmode Hedit Hsel HP Ham)
      as Hres.
    eexists. split; [exact Hres|]. split.
    + pose proof (processSources_allocated (App.data s) f P
                    [(if Js.truthyStr (transPartner f) then transPartner f
                      else "POOL"%string, A)]) as Hall.
      cbn [flat_map] in Hall. now rewrite app_nil_r in Hall.
    + intro Hfound. now apply submit_appends.
  - intros P A Hsel HP Ham Hmode Hnd.
    destruct (Js.absGt (Js.sub (calculateSplitTotal f) A) 1) eqn:Hgt.
    + left. split; [reflexivity|].
      assert (Hres : handleFormSubmit (App.data s) f = Alert).
      { rewrite (creation_submitNew (App.data s) f P A) by assumption.
        unfold submitNew. now rewrite Hmode, Hgt. }
      split; [assumption|]. apply rejected_unchanged. now rewrite Hres.
    + right. split; [reflexivity|].
      pose proof (split_submit (App.data s) f P A Hmode Hedit Hsel HP Ham
                    Hnd Hgt) as Hres.
      eexists. split; [exact Hres|]. split.
      * apply processSources_allocated.
      * intro Hfound. now apply submit_appends.
Qed.

(** *** Editing *)

(** In edit mode the handler asks for the update of the edited transaction
    and, when the source is a project, for one deduction in that project. *)
Lemma edit_calls (data : AppState) (f : Form) (P editing : string) (A : Q) :
  selectedProjectId f = Some P -> Js.truthyStr P = true ->
  editingId f = Some editing -> Js.truthyStr editing = true ->
  transAmount f = Some A ->
  handleFormSubmit data f = Submit (submitEdit data f P editing A).
Proof.
  intros Hsel HP Hed He Ham. unfold handleFormSubmit.
  now rewrite Hsel, Ham, HP, Hed, He.
Qed.

Lemma edit_to_project_calls (data : AppState) (f : Form) (P editing : string)
      (A : Q) (sp : Project.t) :
  findProject data (transPartner f) = Some sp ->
  exists note1 note2,
    submitEdit data f P editing A =
      [ OnUpdateTransaction
          (Transaction.mk editing P None (transType f) A (transDate f) note1);
        OnAddTransaction
          (NewTransaction.mk (Project.id sp) None EXPENSE A (transDate f)
                             note2) ].
Proof.
  intro Hsrc. unfold submitEdit. rewrite Hsrc. eauto.
Qed.

(** *** Funding from another project *)

Lemma processSource_project (data : AppState) (f : Form) (P src : string)
      (amt : Q) :
  existsb (fun p => String.eqb (Project.id p) src) (projects data) = true ->
  exists note1 note2,
    processSource data f P (src, amt) =
      [ NewTransaction.mk P None EXPENSE amt (transDate f) note1;
        NewTransaction.mk src None EXPENSE amt (transDate f) note2 ].
Proof.
  intro Hproj. unfold processSource. cbn [fst snd]. rewrite Hproj. eauto.
Qed.

(** C2. An allocation funded from another project [src] creates exactly two
    transactions of the same amount: an EXPENSE on the target project and an
    EXPENSE on [src], both without partnerId; their identifiers being
    distinct, deleting either one leaves the other in the ledger, whether
    the remote store accepts the deletion or refuses it, and whatever the
    state is when the refusal arrives. These are the calls of a single-source
    request whose source is [src]; and in a validated split request (on an
    object, whose keys are distinct) every entry [src] of the split with a
    strictly positive sub-amount gives this pair of calls, between the
    calls of the positive entries before it and of those after it. *)
Theorem project_funded_pair (s : App.Session) (f : Form) (P src : string)
        (amt : Q) :
  existsb (fun p => String.eqb (Project.id p) src) (projects (App.data s))
  = true ->
  randomId (App.drawn s) <> randomId (S (App.drawn s)) ->
  exists note1 note2,
    let t1 := Transaction.mk (randomId (App.drawn s)) P None EXPENSE amt
                             (transDate f) note1 in
    let t2 := Transaction.mk (randomId (S (App.drawn s))) src None EXPENSE amt
                             (transDate f) note2 in
    let calls :=
      [ OnAddTransaction
          (NewTransaction.mk P None EXPENSE amt (transDate f) note1);
        OnAddTransaction
          (NewTransaction.mk src None EXPENSE amt (transDate f) note2) ] in
    let s' := App.runCalls randomId onUpdateTransaction calls s in
    transactions (App.data s') = transactions (App.data s) ++ [t1; t2]
    /\ (forall remoteError,
          In t2 (transactions
                   (fst (App.handleDeleteTransaction remoteError
                           (Transaction.id t1) (App.data s')))))
    /\ (forall remoteError,
          In t1 (transactions
                   (fst (App.handleDeleteTransaction remoteError
                           (Transaction.id t2) (App.data s')))))
    /\ (forall message current,
          let reverted :=
            fst (App.deleteTransactionRevert message
                   (transactions (App.data s')) current) in
          In t1 (transactions reverted) /\ In t2 (transactions reverted))
    /\ (isSplitMode f = false -> Js.truthy (editingId f) = false ->
        selectedProjectId f = Some P -> Js.truthyStr P = true ->
        transAmount f = Some amt ->
        transPartner f = src -> Js.truthyStr src = true ->
        callsOf (handleFormSubmit (App.data s) f) = calls)
    /\ (forall A,
          isSplitMode f = true -> Js.truthy (editingId f) = false ->
          selectedProjectId f = Some P -> Js.truthyStr P = true ->
          transAmount f = Some A ->
          NoDup (map fst (splitAmounts f)) ->
          Js.absGt (Js.sub (calculateSplitTotal f) A) 1 = false ->
          In (src, Some amt) (splitAmounts f) -> 0 < amt ->
          exists before after,
            positiveEntries (splitAmounts f) = before ++ (src, amt) :: after
            /\ callsOf (handleFormSubmit (App.data s) f) =
                 submitCreate (App.data s) f P before
                   ++ calls ++ submitCreate (App.data s) f P after).
Proof.
  intros Hproj Hids.
  destruct (processSource_project (App.data s) f P src amt Hproj)
    as (note1 & note2 & Hps).
  exists note1, note2. cbn zeta.
  destruct s as [[ps pj ts] n]. cbn in Hproj, Hids, Hps |- *.
  assert (Hne1 : String.eqb (randomId (S n)) (randomId n) = false)
    by (apply String.eqb_neq; congruence).
  assert (Hne2 : String.eqb (randomId n) (randomId (S n)) = false)
    by now apply String.eqb_neq.
  split; [now rewrite <- app_assoc|].
  split; [|split; [|split; [|split]]].
  - intros [msg|]; cbn.
    + rewrite <- app_assoc. apply in_or_app. right. cbn. auto.
    + apply filter_In. split.
      * rewrite <- app_assoc. apply in_or_app. right. cbn. auto.
      * cbn. now rewrite Hne1.
  - intros [msg|]; cbn.
    + rewrite <- app_assoc. apply in_or_app. right. cbn. auto.
    + apply filter_In. split.
      * rewrite <- app_assoc. apply in_or_app. right. cbn. auto.
      * cbn. now rewrite Hne2.
  - intros message current. cbn. rewrite <- app_assoc.
    split; apply in_or_app; right; cbn; auto.
  - intros Hmode Hedit Hsel HP Ham Hsrc Htr.
    rewrite (single_submit (mkAppState ps pj ts) f P amt) by assumption.
    rewrite Hsrc, Htr, Hps. reflexivity.
  - intros A Hmode Hedit Hsel HP Ham Hnd Hok Hin Hpos.
    rewrite (split_submit (mkAppState ps pj ts) f P A) by assumption.
    pose proof (positiveEntries_In _ _ _ Hin Hpos) as Hin'.
    apply in_split in Hin'. destruct Hin' as (l1 & l2 & Hl).
    exists l1, l2. split; [assumption|].
    rewrite Hl. unfold callsOf, submitCreate.
    rewrite flat_map_app. cbn [flat_map]. rewrite Hps.
    now rewrite !map_app.
Qed.

End Allocation.

(** *** Editing towards a project *)

(** The calls of an edit depend on the state through its project list
    only. *)
Lemma submitEdit_projects (d1 d2 : AppState) (f : Projects.Form)
      (P editing : string) (A : Q) :
  projects d1 = projects d2 ->
  Projects.submitEdit d1 f P editing A = Projects.submitEdit d2 f P editing A.
Proof.
  intro H.
  unfold Projects.submitEdit, Projects.findProject, Projects.selectedProject.
  now rewrite H.
Qed.

(** Replacing by id twice by the same record is replacing once. *)
Lemma replace_twice (u : Transaction.t) (l : list Transaction.t) :
  map (fun t => if String.eqb (Transaction.id t) (Transaction.id u)
                then u else t)
      (map (fun t => if String.eqb (Transaction.id t) (Transaction.id u)
                     then u else t) l)
  = map (fun t => if String.eqb (Transaction.id t) (Transaction.id u)
                  then u else t) l.
Proof.
  rewrite map_map. apply map_ext. intro t.
  destruct (String.eqb (Transaction.id t) (Transaction.id u)) eqn:E;
    [now rewrite String.eqb_refl|now rewrite E].
Qed.

(** C7. Editing an expense so that it is funded from another existing
    project [sp]: the handler asks for the update of the edited transaction
    in place (same id, partnerId cleared, new amount) and for exactly one
    fresh EXPENSE of the same amount on [sp], and for nothing else. Whatever
    function is passed as [onUpdateTransaction], the session that results is
    that function's result with the one offsetting entry appended. With an
    update that replaces by id, every other transaction, earlier offsetting
    entries included, stays as it is, and a second such edit leaves the
    first offsetting entry in place and appends another. *)
Theorem edit_with_project_source (randomId : nat -> string) (s : App.Session)
        (f : Projects.Form) (P editing : string) (A : Q) (sp : Project.t) :
  Projects.selectedProject (App.data s) f <> None ->
  Projects.selectedProjectId f = Some P -> Js.truthyStr P = true ->
  Projects.editingId f = Some editing -> Js.truthyStr editing = true ->
  Projects.transAmount f = Some A ->
  Projects.findProject (App.data s) (Projects.transPartner f) = Some sp ->
  exists note1 note2,
    let updated :=
      Transaction.mk editing P None (Projects.transType f) A
                     (Projects.transDate f) note1 in
    let offset :=
      NewTransaction.mk (Project.id sp) None EXPENSE A (Projects.transDate f)
                        note2 in
    let replaced :=
      map (fun t => if String.eqb (Transaction.id t) editing
                    then updated else t)
          (transactions (App.data s)) in
    let edit := App.submitForm randomId App.handleUpdateTransaction f in
    Project.id sp = Projects.transPartner f
    /\ Projects.handleFormSubmit (App.data s) f =
         Projects.Submit [ Projects.OnUpdateTransaction updated;
                           Projects.OnAddTransaction offset ]
    /\ (forall onUpdateTransaction,
          App.submitForm randomId onUpdateTransaction f s =
            App.mkSession
              (App.withTransactions (onUpdateTransaction updated (App.data s))
                 (transactions (onUpdateTransaction updated (App.data s))
                    ++ [NewTransaction.withId (randomId (App.drawn s))
                          offset]))
              (S (App.drawn s)))
    /\ transactions (App.data (edit s)) =
         replaced ++ [NewTransaction.withId (randomId (App.drawn s)) offset]
    /\ (forall t, In t (transactions (App.data s)) ->
                  Transaction.id t <> editing ->
                  In t (transactions (App.data (edit s))))
    /\ (randomId (App.drawn s) <> editing ->
        transactions (App.data (edit (edit s))) =
          replaced
            ++ [ NewTransaction.withId (randomId (App.drawn s)) offset;
                 NewTransaction.withId (randomId (S (App.drawn s))) offset ]).
Proof.
  intros Hfound Hsel HP Hed He Ham Hsrc.
  destruct (edit_to_project_calls (App.data s) f P editing A sp Hsrc)
    as (note1 & note2 & Hcalls).
  exists note1, note2. cbn zeta.
  set (updated := Transaction.mk editing P None (Projects.transType f) A
                                 (Projects.transDate f) note1) in *.
  set (offset := NewTransaction.mk (Project.id sp) None EXPENSE A
                                   (Projects.transDate f) note2) in *.
  assert (Hres : forall d, projects d = projects (App.data s) ->
             Projects.handleFormSubmit d f =
               Projects.Submit [ Projects.OnUpdateTransaction updated;
                                 Projects.OnAddTransaction offset ]).
  { intros d Hd.
    rewrite (edit_calls d f P editing A) by assumption.
    now rewrite (submitEdit_projects d (App.data s)), Hcalls. }
  assert (Hrun : forall onUpdateTransaction s0,
             projects (App.data s0) = projects (App.data s) ->
             App.submitForm randomId onUpdateTransaction f s0 =
               App.mkSession
                 (App.withTransactions
                    (onUpdateTransaction updated (App.data s0))
                    (transactions (onUpdateTransaction updated (App.data s0))
                       ++ [NewTransaction.withId (randomId (App.drawn s0))
                             offset]))
                 (S (App.drawn s0))).
  { intros upd s0 Hd. unfold App.submitForm.
    assert (E : Projects.selectedProject (App.data s0) f
                = Projects.selectedProject (App.data s) f)
      by (unfold Projects.selectedProject; now rewrite Hd).
    rewrite E.
    destruct (Projects.selectedProject (App.data s) f); [|congruence].
    rewrite (Hres _ Hd). reflexivity. }
  assert (Hone : transactions
                   (App.data (App.submitForm randomId
                                App.handleUpdateTransaction f s)) =
                 map (fun t => if String.eqb (Transaction.id t) editing
                               then updated else t)
                     (transactions (App.data s))
                   ++ [NewTransaction.withId (randomId (App.drawn s)) offset]).
  { rewrite (Hrun _ s eq_refl). reflexivity. }
  split; [|split; [exact (Hres _ eq_refl)|split;
                   [intro upd; exact (Hrun upd s eq_refl)|split;
                    [exact Hone|split]]]].
  - unfold Projects.findProject in Hsrc. apply find_some in Hsrc.
    now apply String.eqb_eq.
  - intros t Hin Hid. rewrite Hone. apply in_or_app. left.
    apply in_map_iff. exists t. split; [|assumption].
    apply String.eqb_neq in Hid. now rewrite Hid.
  - intro Hfresh.
    rewrite (Hrun App.handleUpdateTransaction
               (App.submitForm randomId App.handleUpdateTransaction f s))
      by (rewrite (Hrun _ s eq_refl); reflexivity).
    rewrite (Hrun _ s eq_refl).
    cbn [App.data App.drawn App.withTransactions App.handleUpdateTransaction
         transactions partners projects].
    change editing with (Transaction.id updated).
    rewrite map_app, replace_twice. cbn [map].
    assert (En : String.eqb
                   (Transaction.id
                      (NewTransaction.withId (randomId (App.drawn s)) offset))
                   (Transaction.id updated) = false)
      by now apply String.eqb_neq.
    rewrite En, <- app_assoc. reflexivity.
Qed.

(** *** Sub-amounts that are not strictly positive *)

Lemma processSource_amount (data : AppState) (f : Projects.Form)
      (P : string) (source : string * Q) (t : NewTransaction.t) :
  In t (Projects.processSource data f P source) ->
  NewTransaction.amount t = snd source.
Proof.
  unfold Projects.processSource.
  destruct (existsb _ (projects data)); [|destruct (existsb _ (partners data))];
    cbn; intuition (subst; reflexivity).
Qed.

(** Every record created by a split request carries a strictly positive
    sub-amount of the split. *)
Lemma split_records_positive (data : AppState) (f : Projects.Form)
      (t : NewTransaction.t) :
  Projects.isSplitMode f = true ->
  Js.truthy (Projects.editingId f) = false ->
  In t (AllocationSpec.added (Projects.handleFormSubmit data f)) ->
  0 < NewTransaction.amount t
  /\ exists key,
       In (key, Some (NewTransaction.amount t)) (Projects.splitAmounts f).
Proof.
  intros Hmode Hedit Hin.
  destruct (creation_cases data f Hedit)
    as [[Hret _]|(P & A & _ & _ & _ & Hnew)].
  - rewrite Hret in Hin. contradiction.
  - rewrite Hnew in Hin. unfold Projects.submitNew in Hin.
    rewrite Hmode in Hin.
    destruct (Js.absGt _ 1); [contradiction|].
    rewrite submitCreate_added in Hin.
    apply in_flat_map in Hin. destruct Hin as ([key amt] & Hsrc & Ht).
    apply processSource_amount in Ht. cbn in Ht. rewrite Ht.
    destruct (splitSources_sound f key amt Hsrc) as [Hpos Hentry].
    split; [assumption|now exists key].
Qed.

(** C10. In split mode an entry whose sub-amount is not strictly positive
    (empty, zero or negative) leaves [sourcesToProcess] untouched; every
    record created carries a strictly positive sub-amount of the split, and
    the records of a validated split (on an object, whose keys are distinct)
    are exactly those of its strictly positive entries, so such an entry
    produces no ledger entry. Yet the total used by the tolerance check
    takes in the parsed value of every entry, whatever its sign, and is
    their sum when no partial sum is rounded. Consequently some validated
    split request of a positive amount with a negative sub-amount creates a
    single record, an EXPENSE on the target project of strictly more than
    the requested amount plus 1. *)
Theorem nonpositive_entries_dropped_yet_counted :
  (forall sources key val,
      (forall amt, val = Some amt -> amt <= 0) ->
      Projects.collectSource sources (key, val) = sources)
  /\ (forall data f t,
        Projects.isSplitMode f = true ->
        Js.truthy (Projects.editingId f) = false ->
        In t (AllocationSpec.added (Projects.handleFormSubmit data f)) ->
        0 < NewTransaction.amount t)
  /\ (forall data f P A,
        Projects.isSplitMode f = true ->
        Js.truthy (Projects.editingId f) = false ->
        Projects.selectedProjectId f = Some P -> Js.truthyStr P = true ->
        Projects.transAmount f = Some A ->
        NoDup (map fst (Projects.splitAmounts f)) ->
        Js.absGt (Js.sub (Projects.calculateSplitTotal f) A) 1 = false ->
        Projects.rejected (Projects.handleFormSubmit data f) = false
        /\ AllocationSpec.allocated data P (Projects.transDate f)
             (AllocationSpec.positiveEntries (Projects.splitAmounts f))
             (AllocationSpec.added (Projects.handleFormSubmit data f)))
  /\ (forall f g key val,
        Projects.splitAmounts g = Projects.splitAmounts f ++ [(key, val)] ->
        Projects.calculateSplitTotal g =
          Js.add (Projects.calculateSplitTotal f)
                 (Js.orZero (Js.parseFloat val)))
  /\ (forall f,
        AllocationSpec.sumsRepresentable 0
          (AllocationSpec.parsedValues (Projects.splitAmounts f)) ->
        exists total,
          Projects.calculateSplitTotal f = Js.Finite total
          /\ total == AllocationSpec.parsedTotal (Projects.splitAmounts f))
  /\ (exists data f P A key neg kept note,
        0 < A
        /\ Projects.isSplitMode f = true
        /\ Js.truthy (Projects.editingId f) = false
        /\ Projects.selectedProjectId f = Some P
        /\ Projects.transAmount f = Some A
        /\ In (key, Some neg) (Projects.splitAmounts f) /\ neg < 0
        /\ Projects.calculateSplitTotal f = Js.Finite A
        /\ Js.absGt (Js.sub (Projects.calculateSplitTotal f) A) 1 = false
        /\ Projects.rejected (Projects.handleFormSubmit data f) = false
        /\ AllocationSpec.added (Projects.handleFormSubmit data f) =
             [ NewTransaction.mk P None EXPENSE kept (Projects.transDate f)
                                 note ]
        /\ A + 1 < kept
        /\ A + 1 < AllocationSpec.expenseOn P
                      (AllocationSpec.added (Projects.handleFormSubmit data f))).
Proof.
  split; [exact collectSource_skip|].
  split; [intros data f t Hm He Hin;
          exact (proj1 (split_records_positive data f t Hm He Hin))|].
  split.
  { intros data f P A Hmode Hedit Hsel HP Ham Hnd Hok.
    rewrite (split_submit data f P A) by assumption.
    split; [reflexivity|].
    rewrite added_submit. apply processSources_allocated. }
  split; [exact calculateSplitTotal_last|].
  split; [exact calculateSplitTotal_exact|].
  exists Sample.INITIAL_DATA,
         (Sample.split 1000 [("POOL"%string, Some 1500);
                             ("p1"%string, Some (-500))]),
         "proj1"%string, 1000, "p1"%string, (-500), 1500,
         "ค่าวัสดุ (กองกลาง)"%string.
  split; [reflexivity|].
  split; [reflexivity|]. split; [reflexivity|]. split; [reflexivity|].
  split; [reflexivity|].
  split; [cbn; right; left; reflexivity|].
  split; [reflexivity|].
  split; [vm_compute; reflexivity|].
  split; [vm_compute; reflexivity|].
  split; [vm_compute; reflexivity|].
  split; [vm_compute; reflexivity|].
  split; vm_compute; reflexivity.
Qed.

(** C1, at an input where the code breaks it. The split {p1: 2000,
    p2: -1000} of a requested amount of 1000 passes the validation (its
    total is 1000, computed without rounding), yet the only record created
    is an EXPENSE of 2000 on the target project: 1000 more than
    requested. *)
Theorem split_conservation_broken_by_negative_entry :
  let f := Sample.split 1000 [("p1"%string, Some 2000);
                              ("p2"%string, Some (-1000))] in
  let r := Projects.handleFormSubmit Sample.INITIAL_DATA f in
  Projects.calculateSplitTotal f = Js.Finite 1000
  /\ Projects.rejected r = false
  /\ AllocationSpec.added r =
       [ NewTransaction.mk "proj1" (Some "p1"%string) EXPENSE 2000
           "2023-02-01" "ค่าวัสดุ (จ่ายโดย คุณเอก)" ]
  /\ AllocationSpec.expenseOn "proj1" (AllocationSpec.added r) == 2000
  /\ 1 < Qabs (AllocationSpec.expenseOn "proj1" (AllocationSpec.added r) - 1000).
Proof.
  cbn zeta. split; [vm_compute; reflexivity|].
  split; [vm_compute; reflexivity|].
  split; [vm_compute; reflexivity|]. split; vm_compute; reflexivity.
Qed.

(** C3 as stated fails: the amounts are doubles, and the sum of two of them
    is rounded. The split {POOL: 9007199254740992, p1: 1} of a requested
    amount of 9007199254740991 adds up to 2 more than requested; the
    handler computes a total of 9007199254740992, hence a difference of 1,
    does not reject, and two records are appended to the ledger. *)
Lemma split_mismatch_accepted_after_rounding :
  let s := App.mkSession Sample.INITIAL_DATA 0 in
  let A := 9007199254740991 in
  let f := Sample.split A [("POOL"%string, Some 9007199254740992);
                           ("p1"%string, Some 1)] in
  Js.toDouble A = Js.Finite A
  /\ Js.toDouble 9007199254740992 = Js.Finite 9007199254740992
  /\ Js.toDouble 1 = Js.Finite 1
  /\ AllocationSpec.parsedTotal (Projects.splitAmounts f) - A == 2
  /\ 1 < Qabs (AllocationSpec.parsedTotal (Projects.splitAmounts f) - A)
  /\ Projects.calculateSplitTotal f = Js.Finite 9007199254740992
  /\ Js.sub (Projects.calculateSplitTotal f) A = Js.Finite 1
  /\ Projects.rejected (Projects.handleFormSubmit (App.data s) f) = false
  /\ transactions
       (App.data (App.submitForm Sample.ids App.handleUpdateTransaction f s)) =
     transactions Sample.INITIAL_DATA
       ++ [ Transaction.mk "k3x9a" "proj1" None EXPENSE 9007199254740992
              "2023-02-01" "ค่าวัสดุ (กองกลาง)";
            Transaction.mk "q7m2b" "proj1" (Some "p1"%string) EXPENSE 1
              "2023-02-01" "ค่าวัสดุ (จ่ายโดย คุณเอก)" ].
Proof.
  cbn zeta. repeat split; vm_compute; reflexivity.
Qed.

(** C4 as stated fails: a single-source request with the non-positive
    amount -5 on a selected project is not rejected; an EXPENSE of -5 is
    appended to the ledger. *)
Lemma nonpositive_amount_not_rejected :
  let s := App.mkSession Sample.INITIAL_DATA 0 in
  let f := Sample.single (-5) "" in
  Projects.transAmount f = Some (-5)
  /\ -5 <= 0
  /\ Projects.rejected (Projects.handleFormSubmit (App.data s) f) = false
  /\ transactions
       (App.data (App.submitForm Sample.ids App.handleUpdateTransaction f s)) =
       transactions Sample.INITIAL_DATA
         ++ [ Transaction.mk "k3x9a" "proj1" None EXPENSE (-5) "2023-02-01"
                "ค่าวัสดุ" ].
Proof.
  cbn zeta. split; [reflexivity|]. split; [vm_compute; discriminate|].
  split; reflexivity.
Qed.

(** *** Instances *)

(** A split of 400 + 500 for a requested amount of 1000 is rejected. *)
Lemma split_mismatch_rejected_witness :
  let s := App.mkSession Sample.INITIAL_DATA 0 in
  let f := Sample.split 1000 [("POOL"%string, Some 400);
                              ("p1"%string, Some 500)] in
  AllocationSpec.wholeAmounts (Projects.splitAmounts f) 1000
  /\ 1 < Qabs (AllocationSpec.parsedTotal (Projects.splitAmounts f) - 1000)
  /\ Projects.rejected (Projects.handleFormSubmit (App.data s) f) = true
  /\ Projects.callsOf (Projects.handleFormSubmit (App.data s) f) = []
  /\ App.submitForm Sample.ids App.handleUpdateTransaction f s = s.
Proof.
  cbn zeta.
  assert (Hwhole : AllocationSpec.wholeAmounts
                     [("POOL"%string, Some 400); ("p1"%string, Some 500)]
                     1000).
  { exists [400%Z; 500%Z], 1000%Z. split; [|split].
    - repeat constructor.
    - reflexivity.
    - apply Z.leb_le. reflexivity. }
  assert (H : 1 < Qabs (AllocationSpec.parsedTotal
                          [("POOL"%string, Some 400); ("p1"%string, Some 500)]
                        - 1000)) by (vm_compute; reflexivity).
  split; [exact Hwhole|]. split; [exact H|].
  exact (split_mismatch_rejected Sample.ids App.handleUpdateTransaction
           (App.mkSession Sample.INITIAL_DATA 0)
           (Sample.split 1000 [("POOL"%string, Some 400);
                               ("p1"%string, Some 500)])
           1000 eq_refl eq_refl eq_refl
           (or_intror (or_intror (conj Hwhole H)))).
Defined.

(** A form with an empty amount changes nothing; a pool-funded expense of
    1000 is recorded as one entry without partner; and the split
    {POOL: 400, p1: 600} of 1000 is recorded as its two entries. *)
Lemma creation_all_or_nothing_witness :
  let s := App.mkSession Sample.INITIAL_DATA 0 in
  let split := [("POOL"%string, Some 400); ("p1"%string, Some 600)] in
  App.submitForm Sample.ids App.handleUpdateTransaction Sample.blank s = s
  /\ (exists records,
        AllocationSpec.allocated Sample.INITIAL_DATA "proj1" "2023-02-01"
          [("POOL"%string, 1000)] records
        /\ App.submitForm Sample.ids App.handleUpdateTransaction
             (Sample.single 1000 "") s =
           App.mkSession
             (App.withTransactions Sample.INITIAL_DATA
                (transactions Sample.INITIAL_DATA
                   ++ AllocationSpec.stamp Sample.ids 0 records))
             (List.length records))
  /\ (exists records,
        AllocationSpec.allocated Sample.INITIAL_DATA "proj1" "2023-02-01"
          [("POOL"%string, 400); ("p1"%string, 600)] records
        /\ App.submitForm Sample.ids App.handleUpdateTransaction
             (Sample.split 1000 split) s =
           App.mkSession
             (App.withTransactions Sample.INITIAL_DATA
                (transactions Sample.INITIAL_DATA
                   ++ AllocationSpec.stamp Sample.ids 0 records))
             (List.length records)).
Proof.
  cbn zeta. split; [|split].
  - exact (proj2 (proj1 (creation_all_or_nothing Sample.ids
                           App.handleUpdateTransaction
                           (App.mkSession Sample.INITIAL_DATA 0)
                           Sample.blank eq_refl)
                    (or_intror eq_refl))).
  - destruct (proj1 (proj2 (proj2 (creation_all_or_nothing Sample.ids
                                     App.handleUpdateTransaction
                                     (App.mkSession Sample.INITIAL_DATA 0)
                                     (Sample.single 1000 "") eq_refl)))
                "proj1"%string 1000 eq_refl eq_refl eq_refl eq_refl)
      as (records & _ & Hall & Hsession).
    exists records. split; [exact Hall|].
    apply Hsession. discriminate.
  - destruct (proj2 (proj2 (proj2 (creation_all_or_nothing Sample.ids
                                     App.handleUpdateTransaction
                                     (App.mkSession Sample.INITIAL_DATA 0)
                                     (Sample.split 1000
                                        [("POOL"%string, Some 400);
                                         ("p1"%string, Some 600)])
                                     eq_refl)))
                "proj1"%string 1000 eq_refl eq_refl eq_refl eq_refl)
      as [[Hgt _]|(_ & records & _ & Hall & Hsession)].
    + repeat constructor; cbn; intuition discriminate.
    + vm_compute in Hgt. discriminate.
    + exists records. split; [exact Hall|].
      apply Hsession. discriminate.
Defined.

(** Example 9 of the specification: 2,000 funded entirely from another
    project gives one EXPENSE of 2,000 on each of the two projects; and in
    the split {POOL: 400, proj2: 600} of 1,000 the entry of the project
    gives its pair of calls after the call of the pool. *)
Lemma project_funded_pair_witness :
  let s := App.mkSession Sample.twoProjects 0 in
  let f := Sample.single 2000 "proj2" in
  let g := Sample.split 1000 [("POOL"%string, Some 400);
                              ("proj2"%string, Some 600)] in
  Sample.ids 0 <> Sample.ids 1
  /\ (exists note1 note2,
        transactions
          (App.data
             (App.runCalls Sample.ids App.handleUpdateTransaction
                (Projects.callsOf
                   (Projects.handleFormSubmit (App.data s) f)) s)) =
        transactions Sample.twoProjects
          ++ [ Transaction.mk "k3x9a" "proj1" None EXPENSE 2000 "2023-02-01"
                 note1;
               Transaction.mk "q7m2b" "proj2" None EXPENSE 2000 "2023-02-01"
                 note2 ])
  /\ (exists note1 note2 before after,
        AllocationSpec.positiveEntries (Projects.splitAmounts g) =
          before ++ ("proj2"%string, 600) :: after
        /\ Projects.callsOf (Projects.handleFormSubmit (App.data s) g) =
             Projects.submitCreate (App.data s) g "proj1" before
               ++ [ Projects.OnAddTransaction
                      (NewTransaction.mk "proj1" None EXPENSE 600 "2023-02-01"
                         note1);
                    Projects.OnAddTransaction
                      (NewTransaction.mk "proj2" None EXPENSE 600 "2023-02-01"
                         note2) ]
               ++ Projects.submitCreate (App.data s) g "proj1" after).
Proof.
  cbn zeta.
  assert (Hids : Sample.ids 0 <> Sample.ids 1) by discriminate.
  split; [exact Hids|]. split.
  - destruct (project_funded_pair Sample.ids App.handleUpdateTransaction
                (App.mkSession Sample.twoProjects 0)
                (Sample.single 2000 "proj2") "proj1" "proj2" 2000
                eq_refl Hids)
      as (note1 & note2 & Hpair & _ & _ & _ & Hsingle & _).
    exists note1, note2.
    rewrite (Hsingle eq_refl eq_refl eq_refl eq_refl eq_refl eq_refl eq_refl).
    exact Hpair.
  - destruct (project_funded_pair Sample.ids App.handleUpdateTransaction
                (App.mkSession Sample.twoProjects 0)
                (Sample.split 1000 [("POOL"%string, Some 400);
                                    ("proj2"%string, Some 600)])
                "proj1" "proj2" 600 eq_refl Hids)
      as (note1 & note2 & _ & _ & _ & _ & _ & Hsplit).
    exists note1, note2.
    apply (Hsplit 1000); try reflexivity.
    + repeat constructor; cbn; intuition discriminate.
    + cbn. right. left. reflexivity.
Defined.

(** Editing the expense [t3] to 2,500 funded from project [proj2], twice:
    the transaction is replaced in place and the ledger gains one
    offsetting entry on [proj2] with each edit. *)
Lemma edit_with_project_source_witness :
  let s := App.mkSession Sample.twoProjects 0 in
  let f := Sample.edit "t3" 2500 "proj2" in
  let edit := App.submitForm Sample.ids App.handleUpdateTransaction f in
  exists note1 note2,
    transactions (App.data (edit (edit s))) =
      transactions Sample.INITIAL_DATA
        ++ [ Transaction.mk "t3" "proj1" None EXPENSE 2500 "2023-02-01" note1;
             Transaction.mk "k3x9a" "proj2" None EXPENSE 2500 "2023-02-01"
               note2;
             Transaction.mk "q7m2b" "proj2" None EXPENSE 2500 "2023-02-01"
               note2 ].
Proof.
  cbn zeta.
  destruct (edit_with_project_source Sample.ids
              (App.mkSession Sample.twoProjects 0)
              (Sample.edit "t3" 2500 "proj2") "proj1" "t3" 2500
              (Project.mk "proj2" "สาขา 2" "" Project.planning "2023-06-01"))
    as (note1 & note2 & _ & _ & _ & _ & _ & Htwice);
    try reflexivity; try discriminate.
  exists note1, note2.
  rewrite Htwice by discriminate. reflexivity.
Defined.

(** ** Deleting a partner *)

(** C8. Deleting a partner that at least one transaction references always
    fails: the handler alerts and returns, whatever the remote store would
    answer, and the snapshot, in particular the partner list and the
    transaction list, is unchanged. *)
Theorem delete_referenced_partner_refused (remoteError : option string)
        (id : string) (data : AppState) :
  (exists t, In t (transactions data) /\ Transaction.partnerId t = Some id) ->
  exists message,
    App.handleDeletePartner remoteError id data = (data, App.Alerted message).
Proof.
  intros (t & Hin & Hp). unfold App.handleDeletePartner.
  assert (E : existsb (fun t => Js.eqOpt (Transaction.partnerId t) id)
                      (transactions data) = true).
  { apply existsb_exists. exists t. split; [assumption|].
    rewrite Hp. cbn. apply String.eqb_refl. }
  rewrite E. eauto.
Qed.

(** Partner [p1] of the fallback state has an investment and cannot be
    deleted. *)
Lemma delete_referenced_partner_refused_witness :
  exists message,
    App.handleDeletePartner None "p1" Sample.INITIAL_DATA
    = (Sample.INITIAL_DATA, App.Alerted message).
Proof.
  apply delete_referenced_partner_refused.
  exists (Transaction.mk "t1" "proj1" (Some "p1"%string) INVESTMENT 500000
            "2023-01-15" "เงินลงทุนก้อนแรก").
  split; [cbn; auto|reflexivity].
Defined.

(** A remote failure reverts only the record whose call failed: of two
    records added in a row, the first stays when the second is refused. *)
Example remote_failure_reverts_one_record :
  let first := NewTransaction.mk "proj1" None EXPENSE 400 "2023-02-01" "a" in
  let second :=
    NewTransaction.mk "proj1" (Some "p1"%string) EXPENSE 600 "2023-02-01" "b" in
  let afterFirst :=
    fst (App.handleAddTransaction None "k3x9a" first Sample.INITIAL_DATA) in
  transactions
    (fst (App.handleAddTransaction (Some "timeout"%string) "q7m2b" second
            afterFirst)) =
  transactions Sample.INITIAL_DATA ++ [NewTransaction.withId "k3x9a" first].
Proof. reflexivity. Qed.

(** A partner without transactions is deleted. *)
Example delete_unreferenced_partner :
  partners (fst (App.handleDeletePartner None "p3" Sample.INITIAL_DATA)) =
    [ Partner.mk "p1" "คุณเอก" "👨‍💼" "#818CF8";
      Partner.mk "p2" "คุณโท" "👩‍💼" "#34D399" ].
Proof. reflexivity. Qed.

(** ** Realtime change events *)

Section MergeById.

Import RealtimeSpec.

Context {Row Item : Type}.
Variable itemId : Item -> string.
Variable mapRecord : Row -> Item.

Lemma find_id_present (i : string) (l : list Item) :
  In i (map itemId l) ->
  exists item, find (fun item => String.eqb (itemId item) i) l = Some item.
Proof.
  induction l as [|x l IH]; [intros []|].
  cbn. destruct (String.eqb_spec (itemId x) i) as [_|Hne]; [eauto|].
  intros [H|H]; [congruence|now apply IH].
Qed.

Lemma merge_insert_present (new : Row) (l : list Item) :
  In (itemId (mapRecord new)) (map itemId l) ->
  App.mergeEvent itemId mapRecord (App.INSERT new) l = l.
Proof.
  intro Hin. unfold App.mergeEvent.
  destruct (find_id_present _ _ Hin) as [item ->]. reflexivity.
Qed.

Lemma merge_insert_twice (new : Row) (l : list Item) :
  App.mergeEvent itemId mapRecord (App.INSERT new)
                 (App.mergeEvent itemId mapRecord (App.INSERT new) l)
  = App.mergeEvent itemId mapRecord (App.INSERT new) l.
Proof.
  apply merge_insert_present. unfold App.mergeEvent.
  destruct (find _ l) as [item|] eqn:Hfind.
  - apply find_some in Hfind. destruct Hfind as [Hin Heq].
    apply String.eqb_eq in Heq. rewrite <- Heq. now apply in_map.
  - rewrite map_app, in_app_iff. right. now left.
Qed.

Lemma merge_update_replaces (new : Row) (l : list Item) :
  replacedById itemId (mapRecord new) l
               (App.mergeEvent itemId mapRecord (App.UPDATE new) l).
Proof.
  unfold replacedById, App.mergeEvent.
  induction l as [|x l IH]; cbn; constructor; [|exact IH].
  destruct (String.eqb (itemId x) (itemId (mapRecord new))); reflexivity.
Qed.

Lemma merge_delete_removes (oldId : string) (l : list Item) :
  removedById itemId oldId l
              (App.mergeEvent itemId mapRecord (App.DELETE oldId) l).
Proof.
  intro item. unfold App.mergeEvent. rewrite filter_In, negb_true_iff.
  split; intros [Hin H]; (split; [assumption|]).
  - now apply String.eqb_neq.
  - now apply String.eqb_neq.
Qed.

End MergeById.

(** C9. For every local snapshot and every change event: an INSERT whose
    record id is already in the entity list of its table leaves the
    snapshot unchanged, so that applying an INSERT twice is applying it
    once; an UPDATE replaces, in the list of its table, the records with the
    matching id by the new record and leaves everything else; a DELETE
    removes from that list the records with the matching id and leaves
    everything else. *)
Theorem realtime_merge_by_id (change : App.Change) (prev : AppState) :
  (RealtimeSpec.isInsert change = true ->
   In (RealtimeSpec.recordId change) (RealtimeSpec.localIds change prev) ->
   App.handleRealtimeUpdate change prev = prev)
  /\ (RealtimeSpec.isInsert change = true ->
      App.handleRealtimeUpdate change (App.handleRealtimeUpdate change prev)
      = App.handleRealtimeUpdate change prev)
  /\ RealtimeSpec.updatesById change prev (App.handleRealtimeUpdate change prev)
  /\ RealtimeSpec.deletesById change prev (App.handleRealtimeUpdate change prev).
Proof.
  destruct prev as [ps pj ts].
  destruct change as [[new|new|oldId]|[new|new|oldId]|[new|new|oldId]];
    cbn [RealtimeSpec.isInsert RealtimeSpec.payloadIsInsert
         RealtimeSpec.recordId RealtimeSpec.payloadId RealtimeSpec.localIds
         RealtimeSpec.updatesById RealtimeSpec.deletesById
         App.handleRealtimeUpdate App.withPartners App.withProjects
         App.withTransactions partners projects transactions];
    (split; [|split; [|split]]);
    try discriminate; try exact I;
    try (intros _ Hin; now rewrite merge_insert_present);
    try (intros _; now rewrite merge_insert_twice);
    try (split; [apply merge_update_replaces|split; reflexivity]);
    try (split; [exact (merge_update_replaces Partner.id (fun rec => rec)
                                              new ps)
                |split; reflexivity]);
    try (split; [apply merge_delete_removes|split; reflexivity]).
Qed.

(** The echo of an optimistic insert: the row of transaction [t1] comes back
    from the change feed and the snapshot stays as it is. *)
Lemma realtime_merge_by_id_witness :
  let echo :=
    App.OnTransactions
      (App.INSERT
         (App.mkTransactionRow
            (Transaction.mk "t1" "" None INVESTMENT 500000 "2023-01-15"
               "เงินลงทุนก้อนแรก")
            (Some "proj1"%string) (Some "p1"%string))) in
  App.handleRealtimeUpdate echo Sample.INITIAL_DATA = Sample.INITIAL_DATA.
Proof.
  cbn zeta.
  apply (proj1 (realtime_merge_by_id _ _)); [reflexivity|cbn; auto].
Defined.

(** A new row is appended once, with its snake_case columns mapped. *)
Example realtime_insert_new_row :
  let row :=
    App.mkTransactionRow
      (Transaction.mk "t9" "" None INCOME 1200 "2023-03-01" "ขายกาแฟ")
      (Some "proj1"%string) None in
  let once :=
    App.handleRealtimeUpdate (App.OnTransactions (App.INSERT row))
                             Sample.INITIAL_DATA in
  transactions once =
    transactions Sample.INITIAL_DATA
      ++ [ Transaction.mk "t9" "proj1" None INCOME 1200 "2023-03-01" "ขายกาแฟ" ]
  /\ App.handleRealtimeUpdate (App.OnTransactions (App.INSERT row)) once = once.
Proof. cbn zeta. split; reflexivity. Qed.

(** * Further properties of the code *)

(** ** The aggregates of the Dashboard *)

Section DashboardAggregates.

Import AggregationSpec DataModel.

Lemma sumWhere_nil (c : Transaction.t -> bool) : sumWhere c [] == 0.
Proof. reflexivity. Qed.

(** Two disjoint selections add up. *)
Lemma sumWhere_disjoint (a b : Transaction.t -> bool) (l : list Transaction.t) :
  (forall t, a t = true -> b t = false) ->
  sumWhere (fun t => a t || b t) l == sumWhere a l + sumWhere b l.
Proof.
  intro Hd. induction l as [|t l IH]; [unfold sumWhere; cbn; ring|].
  rewrite !sumWhere_cons, IH.
  destruct (a t) eqn:Ea; cbn.
  - rewrite (Hd t Ea). ring.
  - destruct (b t); ring.
Qed.

Lemma total_investment_agrees (data : AppState) :
  Dashboard.totalInvestment (Dashboard.stats data)
  == PartnerSummary.globalTotalInvestment data.
Proof.
  rewrite globalTotalInvestment_sum.
  destruct (visit_fold (transactions data) (Dashboard.mkTotals 0 0 0))
    as (Hinv & _ & _).
  unfold Dashboard.stats. cbn [Dashboard.totalInvestment].
  rewrite Hinv. cbn [Dashboard.accInvestment].
  rewrite sumWhere_disjoint; [ring|].
  intros t Ht. unfold isPartnerExpense, isType in *.
  apply TransactionType_eqb_eq in Ht. now rewrite Ht.
Qed.

(** X1. The total investment of the Dashboard and the global total of the
    partner statement are the same amount on every snapshot. *)
Theorem dashboard_total_is_global_total (data : AppState) :
  Dashboard.totalInvestment (Dashboard.stats data)
  == PartnerSummary.globalTotalInvestment data.
Proof. exact (total_investment_agrees data). Qed.

(** *** The map of partner investments *)

Lemma get_set_same {V : Type} (k : string) (v : V) (m : list (string * V)) :
  Js.get k (Js.set k v m) = Some v.
Proof.
  unfold Js.get. induction m as [|[k' v'] m IH]; cbn.
  - now rewrite String.eqb_refl.
  - destruct (String.eqb k' k) eqn:E; cbn; rewrite E; [reflexivity|exact IH].
Qed.

Lemma get_set_other {V : Type} (k k' : string) (v : V)
      (m : list (string * V)) :
  k' <> k -> Js.get k (Js.set k' v m) = Js.get k m.
Proof.
  intro Hne. unfold Js.get. induction m as [|[k0 v0] m IH]; cbn.
  - apply String.eqb_neq in Hne. now rewrite Hne.
  - destruct (String.eqb_spec k0 k') as [->|Hk0]; cbn.
    + apply String.eqb_neq in Hne. now rewrite Hne.
    + destruct (String.eqb k0 k); [reflexivity|exact IH].
Qed.

Lemma getOrZero_set (k k' : string) (v : Q) (m : list (string * Q)) :
  Js.getOrZero k (Js.set k' v m)
  = if String.eqb k' k then v else Js.getOrZero k m.
Proof.
  unfold Js.getOrZero. destruct (String.eqb_spec k' k) as [->|Hne].
  - now rewrite get_set_same.
  - now rewrite get_set_other.
Qed.

(** The loop invariant of the map: under a non-empty key, the entry grows
    by the amounts of the INVESTMENT and EXPENSE transactions of that
    partner. *)
Lemma tally_fold (k : string) (l : list Transaction.t) :
  Js.truthyStr k = true ->
  forall m : list (string * Q),
    Js.getOrZero k (fold_left Dashboard.tally l m)
    == Js.getOrZero k m + sumWhere (isInvestedBy k) l.
Proof.
  intro Hk. induction l as [|t l IH]; intro m.
  - cbn [fold_left]. rewrite sumWhere_nil. ring.
  - cbn [fold_left]. rewrite IH, sumWhere_cons. clear IH.
    unfold Dashboard.tally, isInvestedBy, isType.
    destruct (Transaction.partnerId t) as [pid|]; cbn [Js.eqOpt andb];
      [|ring].
    destruct (Js.truthyStr pid) eqn:Hpid.
    + destruct (TransactionType_eqb (Transaction.type t) INVESTMENT
                || TransactionType_eqb (Transaction.type t) EXPENSE).
      * rewrite getOrZero_set, andb_true_r.
        destruct (String.eqb pid k) eqn:E.
        -- apply String.eqb_eq in E. subst pid. ring.
        -- ring.
      * rewrite andb_false_r. ring.
    + assert (E : String.eqb pid k = false).
      { apply String.eqb_neq. intros ->. congruence. }
      rewrite E. cbn. ring.
Qed.

Lemma tally_total (data : AppState) (p : Partner.t) :
  Js.truthyStr (Partner.id p) = true ->
  Js.getOrZero (Partner.id p) (fold_left Dashboard.tally (transactions data) [])
  == PartnerSummary.globalPartnerInvested data p.
Proof.
  intro Hk. rewrite tally_fold by assumption.
  rewrite globalPartnerInvested_sum. cbn. ring.
Qed.

(** X2. The pie chart of the Dashboard lists, in the order of the partner
    list, the partners whose accumulated amount is strictly positive; for a
    partner with a non-empty id that amount is the partner's invested amount
    of the partner statement (INVESTMENT and EXPENSE transactions of the
    partner). *)
Theorem partnerInvestments_values (data : AppState) :
  (forall slice, In slice (Dashboard.partnerInvestments data) ->
     0 < Dashboard.value slice
     /\ exists p, In p (partners data)
                  /\ Dashboard.sliceName slice = Partner.name p
                  /\ Dashboard.sliceColor slice = Partner.color p
                  /\ (Js.truthyStr (Partner.id p) = true ->
                      Dashboard.value slice
                      == PartnerSummary.globalPartnerInvested data p))
  /\ (forall p, In p (partners data) ->
        Js.truthyStr (Partner.id p) = true ->
        0 < PartnerSummary.globalPartnerInvested data p ->
        exists slice, In slice (Dashboard.partnerInvestments data)
                      /\ Dashboard.sliceName slice = Partner.name p
                      /\ Dashboard.value slice
                         == PartnerSummary.globalPartnerInvested data p)
  /\ map Dashboard.sliceName (Dashboard.partnerInvestments data)
     = map Partner.name
           (filter (fun p =>
                      Js.gtb (Js.getOrZero (Partner.id p)
                                (fold_left Dashboard.tally
                                           (transactions data) [])) 0)
                   (partners data)).
Proof.
  unfold Dashboard.partnerInvestments. cbn zeta. split; [|split].
  - intros slice Hin. apply filter_In in Hin. destruct Hin as [Hin Hpos].
    apply gtb_true_iff in Hpos. split; [assumption|].
    apply in_map_iff in Hin. destruct Hin as (p & <- & Hp).
    exists p. cbn. repeat split; try assumption.
    intro Hk. now apply tally_total.
  - intros p Hp Hk Hpos.
    exists (Dashboard.mkSlice (Partner.name p)
              (Js.getOrZero (Partner.id p)
                 (fold_left Dashboard.tally (transactions data) []))
              (Partner.color p)).
    cbn. split; [|split; [reflexivity|now apply tally_total]].
    apply filter_In. split.
    + apply in_map_iff. now exists p.
    + cbn. rewrite (gtb_compat _ _ _ (tally_total data p Hk)).
      now apply gtb_true_iff.
  - induction (partners data) as [|p ps IH]; [reflexivity|].
    cbn. destruct (Js.gtb _ 0); cbn; now rewrite IH.
Qed.

(** X3. For a partner with a non-empty id the percentage of the Dashboard
    table is the ownership share of the partner statement. *)
Theorem dashboard_percentage_is_share (data : AppState) (p : Partner.t) :
  Js.truthyStr (Partner.id p) = true ->
  Dashboard.percentage data
    (Dashboard.mkSlice (Partner.name p)
       (Js.getOrZero (Partner.id p)
          (fold_left Dashboard.tally (transactions data) []))
       (Partner.color p))
  == PartnerSummary.sharePercent data p.
Proof.
  intro Hk. unfold Dashboard.percentage, PartnerSummary.sharePercent.
  cbn [Dashboard.value].
  pose proof (total_investment_agrees data) as Htot.
  rewrite (gtb_compat _ _ _ Htot).
  destruct (Js.gtb (PartnerSummary.globalTotalInvestment data) 0);
    [|reflexivity].
  rewrite Htot, (tally_total data p Hk). reflexivity.
Qed.

(** *** Project performance *)








End DashboardAggregates.

(** ** The statement of one project *)

Section ProjectStatement.

Import AggregationSpec DataModel.






End ProjectStatement.

(** ** Optimistic updates and their reverts *)

Section OptimisticUpdates.

Import DataModel.

Lemma filter_all {A : Type} (keep : A -> bool) (l : list A) :
  (forall x, In x l -> keep x = true) -> filter keep l = l.
Proof.
  induction l as [|x l IH]; intro H; [reflexivity|].
  cbn. rewrite (H x (or_introl eq_refl)), IH; [reflexivity|].
  intros y Hy. apply H. now right.
Qed.

(** Filtering out an id that is not in the list keeps the list. *)
Lemma filter_fresh_id {A : Type} (itemId : A -> string) (i : string)
      (l : list A) :
  ~ In i (map itemId l) ->
  filter (fun x => negb (String.eqb (itemId x) i)) l = l.
Proof.
  intro Hfresh. apply filter_all. intros x Hx.
  apply negb_true_iff, String.eqb_neq. intros <-.
  apply Hfresh. now apply in_map.
Qed.

Lemma filter_app_fresh {A : Type} (itemId : A -> string) (x : A)
      (l : list A) :
  filter (fun y => negb (String.eqb (itemId y) (itemId x))) (l ++ [x])
  = filter (fun y => negb (String.eqb (itemId y) (itemId x))) l.
Proof.
  rewrite filter_app. cbn. rewrite String.eqb_refl. cbn. apply app_nil_r.
Qed.

(** X6. When the remote store refuses an added transaction, the revert
    keeps exactly the previous transactions whose id differs from the drawn
    id: the snapshot is restored when the drawn id is fresh, and a previous
    transaction that happens to carry the same id is removed with the new
    one. *)
Theorem failed_add_transaction_reverts (message newId : string)
        (transaction : NewTransaction.t) (data : AppState) :
  transactions
    (fst (App.handleAddTransaction (Some message) newId transaction data))
  = filter (fun t => negb (String.eqb (Transaction.id t) newId))
           (transactions data)
  /\ (~ In newId (transactionIds data) ->
      fst (App.handleAddTransaction (Some message) newId transaction data)
      = data).
Proof.
  assert (E : transactions
                (fst (App.handleAddTransaction (Some message) newId
                        transaction data))
              = filter (fun t => negb (String.eqb (Transaction.id t) newId))
                       (transactions data)).
  { cbn. exact (filter_app_fresh Transaction.id
                  (NewTransaction.withId newId transaction)
                  (transactions data)). }
  split; [exact E|].
  intro Hfresh. destruct data as [ps pj ts]. cbn in *.
  unfold App.withTransactions. cbn. f_equal.
  rewrite E. now apply filter_fresh_id.
Qed.

(** X7. The same holds for partners and projects: a refused addition under
    a fresh id leaves the snapshot as it was. *)
Theorem failed_add_partner_or_project_restores (message newId : string)
        (data : AppState) :
  (forall partner,
      ~ In newId (partnerIds data) ->
      fst (App.handleAddPartner (Some message) newId partner data) = data)
  /\ (forall project,
        ~ In newId (projectIds data) ->
        fst (App.handleAddProject (Some message) newId project data) = data).
Proof.
  destruct data as [ps pj ts]. split.
  - intros partner Hfresh. cbn in *. unfold App.withPartners. cbn. f_equal.
    pose proof (filter_app_fresh Partner.id
                  (Partner.mk newId (Partner.name partner)
                     (Partner.avatar partner) (Partner.color partner)) ps)
      as E.
    cbn in E. rewrite E. now apply filter_fresh_id.
  - intros project Hfresh. cbn in *. unfold App.withProjects. cbn. f_equal.
    pose proof (filter_app_fresh Project.id
                  (Project.mk newId (Project.name project)
                     (Project.description project) (Project.status project)
                     (Project.startDate project)) pj)
      as E.
    cbn in E. rewrite E. now apply filter_fresh_id.
Qed.

(** X8. Deleting a transaction. The optimistic step leaves no transaction
    with that id, keeps the others, and touches neither partners nor
    projects; on an id that is not in the ledger it changes nothing, and
    after the addition of a transaction under that fresh id it gives the
    snapshot back. A refusal writes back the transaction list read at the
    call into the state current by then: a call that is answered before any
    other update restores the snapshot, whereas a deletion applied in
    between is undone together with the refused one. *)
Theorem delete_transaction_behaviour (id : string) (data : AppState) :
  ~ In id (transactionIds (App.deleteTransactionOptimistic id data))
  /\ (forall t, In t (transactions data) -> Transaction.id t <> id ->
                In t (transactions (App.deleteTransactionOptimistic id data)))
  /\ (partners (App.deleteTransactionOptimistic id data) = partners data
      /\ projects (App.deleteTransactionOptimistic id data) = projects data)
  /\ (~ In id (transactionIds data) ->
      App.deleteTransactionOptimistic id data = data)
  /\ (forall transaction,
        ~ In id (transactionIds data) ->
        App.deleteTransactionOptimistic id
          (fst (App.handleAddTransaction None id transaction data))
        = data)
  /\ fst (App.handleDeleteTransaction None id data)
     = App.deleteTransactionOptimistic id data
  /\ (forall message,
        fst (App.handleDeleteTransaction (Some message) id data) = data)
  /\ (forall message other,
        fst (App.deleteTransactionRevert message (transactions data)
               (App.deleteTransactionOptimistic other
                  (App.deleteTransactionOptimistic id data)))
        = data).
Proof.
  destruct data as [ps pj ts].
  unfold App.handleDeleteTransaction, App.deleteTransactionRevert,
    App.deleteTransactionOptimistic, App.withTransactions, transactionIds.
  cbn.
  split; [|split; [|split; [now split|split; [|split;
    [|split; [reflexivity|split; [reflexivity|reflexivity]]]]]]].
  - intro Hin. apply in_map_iff in Hin. destruct Hin as (t & Hid & Hin).
    apply filter_In in Hin. destruct Hin as [_ Hne].
    apply negb_true_iff, String.eqb_neq in Hne. contradiction.
  - intros t Hin Hne. apply filter_In. split; [assumption|].
    now apply negb_true_iff, String.eqb_neq.
  - intro Hfresh. f_equal. now apply filter_fresh_id.
  - intros transaction Hfresh. f_equal.
    pose proof (filter_app_fresh Transaction.id
                  (NewTransaction.withId id transaction) ts) as E.
    cbn in E. rewrite E. now apply filter_fresh_id.
Qed.

(** X9. Deleting a partner. A partner that a transaction references is
    refused by the guard and nothing changes. Otherwise the optimistic step
    leaves every partnerId of the ledger pointing to an existing partner if
    it did before, and does not touch the transactions; a call that is
    answered before any other update ends in that state when accepted and
    in the snapshot when refused. The revert writes back the partner list
    read at the call: a partner added in between is dropped by it. *)
Theorem delete_partner_keeps_references (id : string) (data : AppState) :
  partnerRefsResolve data ->
  (existsb (fun t => Js.eqOpt (Transaction.partnerId t) id)
           (transactions data) = true ->
   forall remoteError,
     fst (App.handleDeletePartner remoteError id data) = data)
  /\ (existsb (fun t => Js.eqOpt (Transaction.partnerId t) id)
              (transactions data) = false ->
      partnerRefsResolve (App.deletePartnerOptimistic id data)
      /\ transactions (App.deletePartnerOptimistic id data)
         = transactions data
      /\ fst (App.handleDeletePartner None id data)
         = App.deletePartnerOptimistic id data
      /\ (forall message,
            fst (App.handleDeletePartner (Some message) id data) = data))
  /\ (forall message newId partner,
        fst (App.deletePartnerRevert message (partners data)
               (fst (App.handleAddPartner None newId partner
                       (App.deletePartnerOptimistic id data))))
        = data).
Proof.
  intro Href. split; [|split].
  - intros Hguard remoteError. unfold App.handleDeletePartner.
    now rewrite Hguard.
  - intro Hguard.
    assert (Hnone : forall t, In t (transactions data) ->
                              Transaction.partnerId t <> Some id).
    { intros t Hin Hp.
      assert (H : existsb (fun t => Js.eqOpt (Transaction.partnerId t) id)
                          (transactions data) = true).
      { apply existsb_exists. exists t. split; [assumption|].
        rewrite Hp. cbn. apply String.eqb_refl. }
      congruence. }
    split; [|split; [reflexivity|split]].
    + intros t x Hin Hp. cbn in Hin.
      unfold partnerIds, App.deletePartnerOptimistic, App.withPartners. cbn.
      apply in_map_iff.
      pose proof (Href t x Hin Hp) as Hx.
      apply in_map_iff in Hx. destruct Hx as (p & Hid & Hp').
      exists p. split; [assumption|].
      apply filter_In. split; [assumption|].
      apply negb_true_iff, String.eqb_neq. intro E.
      apply (Hnone t Hin). congruence.
    + unfold App.handleDeletePartner. now rewrite Hguard.
    + intro message. unfold App.handleDeletePartner. rewrite Hguard.
      now destruct data.
  - intros message newId partner. now destruct data.
Qed.

End OptimisticUpdates.

(** ** The store and the change feed *)

Section StoreAndFeed.

Import DataModel SupabaseService StoreSpec.

Lemma transaction_round_trip (t : Transaction.t) :
  storable t ->
  App.mapTransaction (receivedTransaction (dbTransaction t)) = t.
Proof.
  intros [Hproj Hpartner]. destruct t as [i pj pa ty am da no].
  cbn in *. unfold App.mapTransaction. cbn. rewrite Hproj.
  f_equal. destruct pa as [x|]; [|reflexivity].
  unfold Js.or. cbn. now rewrite (Hpartner x eq_refl).
Qed.

Lemma project_round_trip (p : Project.t) :
  Js.truthyStr (Project.startDate p) = true ->
  App.mapProject (receivedProject (dbProject p)) = p.
Proof.
  intro H. destruct p as [i n d s sd]. cbn in *.
  unfold App.mapProject. cbn. now rewrite H.
Qed.

Lemma map_id_on {A : Type} (f : A -> A) (l : list A) :
  (forall x, In x l -> f x = x) -> map f l = l.
Proof.
  induction l as [|x l IH]; intro H; [reflexivity|].
  cbn. rewrite (H x (or_introl eq_refl)), IH; [reflexivity|].
  intros y Hy. apply H. now right.
Qed.

(** X10. What [addTransaction] and [addProject] write, [loadData] reads back
    unchanged, the store returning the rows it was given: a snapshot whose transactions have a non-empty projectId and
    a partnerId that is absent or non-empty, and whose projects have a
    non-empty startDate, is recovered from its stored rows. A partnerId that
    is the empty string comes back absent. *)
Theorem store_round_trip (data : AppState) :
  ((forall t, In t (transactions data) -> storable t) ->
   (forall p, In p (projects data) ->
              Js.truthyStr (Project.startDate p) = true) ->
   loadData (partners data) (map dbProject (projects data))
            (map dbTransaction (transactions data)) = data)
  /\ (forall t,
        Js.truthyStr (Transaction.projectId t) = true ->
        Transaction.partnerId t = Some EmptyString ->
        Transaction.partnerId
          (App.mapTransaction (receivedTransaction (dbTransaction t))) = None).
Proof.
  split.
  - intros Ht Hp. destruct data as [ps pj ts]. cbn in *.
    unfold loadData. rewrite !map_map. f_equal.
    + apply (map_id_on (fun p => App.mapProject (receivedProject (dbProject p)))).
      intros p Hin. apply project_round_trip. now apply Hp.
    + apply (map_id_on
               (fun t => App.mapTransaction
                           (receivedTransaction (dbTransaction t)))).
      intros t Hin. apply transaction_round_trip. now apply Ht.
  - intros t _ Hpa. destruct t as [i pj pa ty am da no]. cbn in *.
    subst pa. reflexivity.
Qed.

(** X11. The echo of an optimistic insert: when the row written for a
    transaction just added comes back as an INSERT event, the snapshot is
    unchanged; and a session that does not hold the transaction ends, on
    that event, with the same snapshot as the session that added it. *)
Theorem insert_echo_converges (newId : string) (transaction : NewTransaction.t)
        (data : AppState) :
  let added := NewTransaction.withId newId transaction in
  let local := fst (App.handleAddTransaction None newId transaction data) in
  let echo :=
    App.OnTransactions (App.INSERT (receivedTransaction (dbTransaction added))) in
  App.handleRealtimeUpdate echo local = local
  /\ (storable added -> ~ In newId (transactionIds data) ->
      App.handleRealtimeUpdate echo data = local).
Proof.
  cbn zeta. destruct data as [ps pj ts]. split.
  - cbn. unfold App.withTransactions. cbn. f_equal.
    destruct (find_id_present Transaction.id newId
                (ts ++ [NewTransaction.withId newId transaction]))
      as [item Hfound].
    { rewrite map_app, in_app_iff. right. now left. }
    cbn in Hfound. now rewrite Hfound.
  - intros Hst Hfresh. cbn. unfold App.withTransactions. cbn. f_equal.
    unfold App.mergeEvent.
    rewrite (transaction_round_trip _ Hst).
    destruct (find _ ts) as [t|] eqn:Hfind; [|reflexivity].
    exfalso. apply find_some in Hfind. destruct Hfind as [Hin Heq].
    apply String.eqb_eq in Heq. cbn in Heq. apply Hfresh.
    unfold transactionIds. cbn. rewrite <- Heq. now apply in_map.
Qed.

(** *** Invariants of the merge *)

Section MergeInvariants.

Context {Row Item : Type}.
Variable itemId : Item -> string.
Variable mapRecord : Row -> Item.

Lemma find_id_absent (i : string) (l : list Item) :
  find (fun item => String.eqb (itemId item) i) l = None ->
  ~ In i (map itemId l).
Proof.
  intros Hfind Hin. apply in_map_iff in Hin. destruct Hin as (x & <- & Hx).
  apply (find_none _ _ Hfind) in Hx. cbn in Hx.
  now rewrite String.eqb_refl in Hx.
Qed.

Lemma NoDup_ids_filter (keep : Item -> bool) (l : list Item) :
  NoDup (map itemId l) -> NoDup (map itemId (filter keep l)).
Proof.
  induction l as [|x l IH]; intro H; [constructor|].
  cbn in H. inversion H as [|? ? Hx Hl]; subst.
  cbn. destruct (keep x); [|now apply IH].
  cbn. constructor; [|now apply IH].
  intro Hin. apply Hx. apply in_map_iff in Hin.
  destruct Hin as (y & Hy & Hin). apply filter_In in Hin.
  rewrite <- Hy. apply in_map. tauto.
Qed.

Lemma update_keeps_ids (new : Row) (l : list Item) :
  map itemId (App.mergeEvent itemId mapRecord (App.UPDATE new) l)
  = map itemId l.
Proof.
  unfold App.mergeEvent. rewrite map_map. apply map_ext_in.
  intros x _. destruct (String.eqb_spec (itemId x) (itemId (mapRecord new)));
    [congruence|reflexivity].
Qed.

(** Whatever the event, a list with unique ids keeps unique ids. *)
Lemma merge_keeps_unique_ids (payload : App.Payload Row) (l : list Item) :
  NoDup (map itemId l) ->
  NoDup (map itemId (App.mergeEvent itemId mapRecord payload l)).
Proof.
  intro Hnd. destruct payload as [new|new|oldId].
  - unfold App.mergeEvent.
    destruct (find _ l) eqn:Hfind; [assumption|].
    apply find_id_absent in Hfind.
    rewrite map_app. cbn. clear - Hnd Hfind.
    induction (map itemId l) as [|i ids IH]; cbn.
    + repeat constructor. intros [].
    + inversion Hnd as [|? ? Hi Hids]; subst.
      constructor.
      * rewrite in_app_iff. intros [H|[H|[]]]; [contradiction|].
        apply Hfind. now left.
      * apply IH; [assumption|]. intro H. apply Hfind. now right.
  - now rewrite update_keeps_ids.
  - now apply NoDup_ids_filter.
Qed.

(** An UPDATE or a DELETE for an id that is not in the list changes
    nothing: an UPDATE never inserts. *)
Lemma merge_absent_id (payload : App.Payload Row) (l : list Item) :
  RealtimeSpec.payloadIsInsert payload = false ->
  ~ In (RealtimeSpec.payloadId (fun r => itemId (mapRecord r)) payload)
       (map itemId l) ->
  App.mergeEvent itemId mapRecord payload l = l.
Proof.
  intros Hkind Habsent. destruct payload as [new|new|oldId];
    [discriminate| |]; cbn in Habsent; unfold App.mergeEvent.
  - apply map_id_on. intros x Hx.
    destruct (String.eqb_spec (itemId x) (itemId (mapRecord new))) as [E|_];
      [|reflexivity].
    exfalso. apply Habsent. rewrite <- E. now apply in_map.
  - now apply filter_fresh_id.
Qed.

End MergeInvariants.

(** X12. Unique ids are an invariant of the change feed: if the partners,
    the projects and the transactions of a snapshot each have pairwise
    distinct ids, they still have after any change event. *)
Theorem realtime_keeps_unique_ids (change : App.Change) (prev : AppState) :
  NoDup (partnerIds prev) /\ NoDup (projectIds prev)
  /\ NoDup (transactionIds prev) ->
  let next := App.handleRealtimeUpdate change prev in
  NoDup (partnerIds next) /\ NoDup (projectIds next)
  /\ NoDup (transactionIds next).
Proof.
  intros (Hpa & Hpj & Htx). cbn zeta.
  destruct prev as [ps pj ts].
  unfold partnerIds, projectIds, transactionIds in *. cbn in *.
  destruct change as [payload|payload|payload]; cbn;
    repeat split; try assumption; now apply merge_keeps_unique_ids.
Qed.

(** X13. A change event that is not an INSERT and whose id is not in the
    list of its table leaves the snapshot unchanged: an UPDATE for an
    unknown record is not turned into an insertion, and a DELETE for an
    unknown record removes nothing. *)
Theorem realtime_unknown_id_ignored (change : App.Change) (prev : AppState) :
  RealtimeSpec.isInsert change = false ->
  ~ In (RealtimeSpec.recordId change) (RealtimeSpec.localIds change prev) ->
  App.handleRealtimeUpdate change prev = prev.
Proof.
  intros Hkind Habsent. destruct prev as [ps pj ts].
  destruct change as [payload|payload|payload]; cbn in *;
    unfold App.withPartners, App.withProjects, App.withTransactions; cbn;
    f_equal.
  - apply (merge_absent_id Partner.id (fun rec => rec)); assumption.
  - apply (merge_absent_id Project.id App.mapProject); assumption.
  - apply (merge_absent_id Transaction.id App.mapTransaction); assumption.
Qed.

Lemma merge_idempotent {Row Item : Type} (itemId : Item -> string)
      (mapRecord : Row -> Item) (payload : App.Payload Row) (l : list Item) :
  App.mergeEvent itemId mapRecord payload
                 (App.mergeEvent itemId mapRecord payload l)
  = App.mergeEvent itemId mapRecord payload l.
Proof.
  destruct payload as [new|new|oldId].
  - apply merge_insert_twice.
  - unfold App.mergeEvent. rewrite map_map. apply map_ext. intro x.
    destruct (String.eqb (itemId x) (itemId (mapRecord new))) eqn:E.
    + now rewrite String.eqb_refl.
    + now rewrite E.
  - unfold App.mergeEvent. apply filter_all. intros x Hx.
    apply filter_In in Hx. tauto.
Qed.

(** X14. Every change event is idempotent: delivering the same INSERT,
    UPDATE or DELETE a second time leaves the snapshot as the first delivery
    left it. *)
Theorem realtime_event_idempotent (change : App.Change) (prev : AppState) :
  App.handleRealtimeUpdate change (App.handleRealtimeUpdate change prev)
  = App.handleRealtimeUpdate change prev.
Proof.
  destruct prev as [ps pj ts].
  destruct change as [payload|payload|payload]; cbn;
    unfold App.withPartners, App.withProjects, App.withTransactions; cbn;
    f_equal; apply merge_idempotent.
Qed.

End StoreAndFeed.

(** ** The transaction form *)

Section TransactionForm.

Import Projects AllocationSpec DataModel.

Variable randomId : nat -> string.

Lemma processSource_type (data : AppState) (f : Form) (P : string)
      (source : string * Q) (r : NewTransaction.t) :
  In r (processSource data f P source) -> NewTransaction.type r = EXPENSE.
Proof.
  unfold processSource.
  destruct (existsb _ (projects data)); [|destruct (existsb _ (partners data))];
    cbn; intuition (subst; reflexivity).
Qed.

(** The records of a creation come from [processSource] on the selected
    project. *)
Lemma creation_records (data : AppState) (f : Form) (r : NewTransaction.t) :
  Js.truthy (editingId f) = false ->
  In r (added (handleFormSubmit data f)) ->
  exists P source,
    selectedProjectId f = Some P /\ In r (processSource data f P source).
Proof.
  intros Hedit Hin.
  destruct (creation_cases data f Hedit)
    as [[Hret _]|(P & A & Hsel & _ & _ & Hnew)].
  - rewrite Hret in Hin. contradiction.
  - rewrite Hnew in Hin. unfold submitNew in Hin.
    destruct (isSplitMode f); [destruct (Js.absGt _ 1); [contradiction|]|];
      rewrite submitCreate_added in Hin;
      apply in_flat_map in Hin; destruct Hin as (source & _ & Hr);
      now exists P, source.
Qed.

(** X15. The creation logic does not read the transaction type chosen in
    the form: whatever [transType] is (EXPENSE, INCOME or INVESTMENT), every
    record a creation hands to [onAddTransaction] is an EXPENSE. *)
Theorem creation_records_are_expenses (data : AppState) (f : Form)
        (r : NewTransaction.t) :
  Js.truthy (editingId f) = false ->
  In r (added (handleFormSubmit data f)) ->
  NewTransaction.type r = EXPENSE.
Proof.
  intros Hedit Hin.
  destruct (creation_records data f r Hedit Hin) as (P & source & _ & Hr).
  now apply processSource_type in Hr.
Qed.

Lemma processSource_refs (data : AppState) (f : Form) (P : string)
      (source : string * Q) (r : NewTransaction.t) :
  In r (processSource data f P source) ->
  (NewTransaction.projectId r = P
   \/ In (NewTransaction.projectId r) (projectIds data))
  /\ (forall x, NewTransaction.partnerId r = Some x ->
                In x (partnerIds data)).
Proof.
  unfold processSource. destruct source as [key amount]. cbn [fst snd].
  destruct (existsb (fun p => String.eqb (Project.id p) key) (projects data))
    eqn:Hproj.
  - apply existsb_exists in Hproj. destruct Hproj as (p & Hp & Hid).
    apply String.eqb_eq in Hid.
    cbn. intros [<-|[<-|[]]]; cbn; (split; [|discriminate]).
    + now left.
    + right. unfold projectIds. rewrite <- Hid. now apply in_map.
  - destruct (existsb (fun p => String.eqb (Partner.id p) key) (partners data))
      eqn:Hpart.
    + apply existsb_exists in Hpart. destruct Hpart as (p & Hp & Hid).
      apply String.eqb_eq in Hid.
      cbn. intros [<-|[]]; cbn. split; [now left|].
      intros x Hx. inversion Hx; subst x.
      unfold partnerIds. rewrite <- Hid. now apply in_map.
    + cbn. intros [<-|[]]; cbn. split; [now left|discriminate].
Qed.

Lemma stamp_In (n : nat) (records : list NewTransaction.t)
      (t : Transaction.t) :
  In t (stamp randomId n records) ->
  exists i r, In r records /\ t = NewTransaction.withId i r.
Proof.
  revert n. induction records as [|r records IH]; intros n; cbn; [intros []|].
  intros [<-|H].
  - exists (randomId n), r. split; [now left|reflexivity].
  - destruct (IH _ H) as (i & r' & Hr' & ->).
    exists i, r'. split; [now right|reflexivity].
Qed.

Lemma selectedProject_found (data : AppState) (f : Form) (p : Project.t) :
  selectedProject data f = Some p ->
  selectedProjectId f = Some (Project.id p) /\ In p (projects data).
Proof.
  intro H. apply find_some in H. destruct H as [Hin Heq].
  split; [|assumption].
  destruct (selectedProjectId f) as [x|]; cbn in Heq; [|discriminate].
  apply String.eqb_eq in Heq. now subst.
Qed.

(** An update that replaces by id keeps the references valid when the new
    record's own references are. *)
Lemma update_keeps_references (u : Transaction.t) (data : AppState) :
  projectRefsResolve data ->
  partnerRefsResolve data ->
  In (Transaction.projectId u) (projectIds data) ->
  (forall x, Transaction.partnerId u = Some x -> In x (partnerIds data)) ->
  projectRefsResolve (App.handleUpdateTransaction u data)
  /\ partnerRefsResolve (App.handleUpdateTransaction u data).
Proof.
  intros Hproj Hpart Hup Hux. destruct data as [ps pj ts].
  unfold App.handleUpdateTransaction, App.withTransactions. cbn in *.
  split.
  - intros t Hin. cbn in Hin. apply in_map_iff in Hin.
    destruct Hin as (t0 & Ht & Hin).
    destruct (String.eqb (Transaction.id t0) (Transaction.id u));
      subst t; [exact Hup|exact (Hproj t0 Hin)].
  - intros t x Hin Hx. cbn in Hin. apply in_map_iff in Hin.
    destruct Hin as (t0 & Ht & Hin).
    destruct (String.eqb (Transaction.id t0) (Transaction.id u));
      subst t; [exact (Hux x Hx)|exact (Hpart t0 x Hin Hx)].
Qed.

Lemma findProject_found (data : AppState) (key : string) (p : Project.t) :
  findProject data key = Some p -> Project.id p = key /\ In p (projects data).
Proof.
  intro H. apply find_some in H. destruct H as [Hin Heq].
  split; [now apply String.eqb_eq|assumption].
Qed.

Lemma findProject_listed (data : AppState) (key : string) :
  In key (projectIds data) -> findProject data key <> None.
Proof.
  intros Hin Hnone. unfold projectIds in Hin. apply in_map_iff in Hin.
  destruct Hin as (p & Hid & Hp).
  pose proof (find_none _ _ Hnone p Hp) as H. cbn in H.
  rewrite Hid, String.eqb_refl in H. discriminate.
Qed.

(** X16. Submitting the form keeps the references of the ledger valid: if
    every transaction belongs to an existing project and every partnerId
    that is defined is the id of an existing partner, this still holds
    after a submission, which changes neither the partner list nor the
    project list. In creation mode this holds whatever is passed as
    [onUpdateTransaction]; in edit mode it holds with an update that
    replaces by id, provided the source chosen in the form is the pool, a
    partner or a project of the snapshot. *)
Theorem submit_keeps_references (f : Form) (s : App.Session) :
  projectRefsResolve (App.data s) ->
  partnerRefsResolve (App.data s) ->
  (Js.truthy (editingId f) = false ->
   forall onUpdateTransaction,
     let s' := App.submitForm randomId onUpdateTransaction f s in
     projectRefsResolve (App.data s')
     /\ partnerRefsResolve (App.data s')
     /\ partners (App.data s') = partners (App.data s)
     /\ projects (App.data s') = projects (App.data s))
  /\ (Js.truthy (editingId f) = true ->
      transPartner f = EmptyString
      \/ In (transPartner f) (partnerIds (App.data s))
      \/ In (transPartner f) (projectIds (App.data s)) ->
      let s' := App.submitForm randomId App.handleUpdateTransaction f s in
      projectRefsResolve (App.data s')
      /\ partnerRefsResolve (App.data s')
      /\ partners (App.data s') = partners (App.data s)
      /\ projects (App.data s') = projects (App.data s)).
Proof.
  intros Hproj Hpart. split.
  - intros Hedit upd. cbn zeta. unfold App.submitForm.
    destruct (selectedProject (App.data s) f) as [p|] eqn:Hsel;
      [|now repeat split].
    apply selectedProject_found in Hsel. destruct Hsel as [Hid Hp].
    rewrite creation_calls, runCalls_adds by assumption.
    destruct s as [[ps pj ts] n]. cbn [fst App.data App.withTransactions
                                        partners projects transactions] in *.
    split; [|split; [|split; reflexivity]].
    + intros t Hin. unfold projectIds. cbn.
      apply in_app_or in Hin. destruct Hin as [Hin|Hin];
        [exact (Hproj t Hin)|].
      apply stamp_In in Hin. destruct Hin as (i & r & Hr & ->).
      destruct (creation_records _ _ _ Hedit Hr) as (P & source & HP & Hsrc).
      apply processSource_refs in Hsrc. destruct Hsrc as [[HrP|Hin] _];
        cbn; [|exact Hin].
      rewrite HrP. rewrite Hid in HP. inversion HP; subst P.
      now apply in_map.
    + intros t x Hin Hx. unfold partnerIds. cbn.
      apply in_app_or in Hin. destruct Hin as [Hin|Hin];
        [exact (Hpart t x Hin Hx)|].
      apply stamp_In in Hin. destruct Hin as (i & r & Hr & ->).
      destruct (creation_records _ _ _ Hedit Hr) as (P & source & _ & Hsrc).
      apply processSource_refs in Hsrc. destruct Hsrc as [_ Href].
      now apply Href.
  - intros Hedit Hsource. cbn zeta. unfold App.submitForm.
    destruct (selectedProject (App.data s) f) as [p|] eqn:Hsel;
      [|now repeat split].
    apply selectedProject_found in Hsel. destruct Hsel as [Hid Hp].
    destruct (editingId f) as [editing|] eqn:Hed; cbn in Hedit;
      [|discriminate].
    unfold handleFormSubmit. rewrite Hid, Hed, Hedit.
    destruct (transAmount f) as [A|]; [|now repeat split].
    destruct (Js.truthyStr (Project.id p)); cbn [negb]; [|now repeat split].
    unfold submitEdit.
    assert (HinP : In (Project.id p) (projectIds (App.data s)))
      by now apply in_map.
    destruct (findProject (App.data s) (transPartner f)) as [sp|] eqn:Hsrc.
    + apply findProject_found in Hsrc. destruct Hsrc as [_ Hsp].
      match goal with
      | |- context [OnUpdateTransaction ?u] =>
          destruct (update_keeps_references u (App.data s) Hproj Hpart HinP)
            as [Hproj' Hpart']; [discriminate|]
      end.
      destruct s as [[ps pj ts] n].
      cbn [callsOf App.runCalls App.invoke App.onAddTransaction App.data
           App.drawn fst App.handleAddTransaction] in *.
      unfold App.withTransactions, App.handleUpdateTransaction in *.
      cbn [partners projects transactions App.withTransactions] in *.
      split; [|split; [|split; reflexivity]].
      * intros t Hin. cbn in Hin. apply in_app_or in Hin.
        destruct Hin as [Hin|[<-|[]]]; [exact (Hproj' t Hin)|].
        cbn. unfold projectIds. cbn. now apply in_map.
      * intros t x Hin Hx. cbn in Hin. apply in_app_or in Hin.
        destruct Hin as [Hin|[<-|[]]]; [exact (Hpart' t x Hin Hx)|].
        discriminate.
    + match goal with
      | |- context [OnUpdateTransaction ?u] =>
          destruct (update_keeps_references u (App.data s) Hproj Hpart HinP)
            as [Hproj' Hpart']
      end.
      { cbn. intros x Hx.
        destruct Hsource as [Hempty|[Hpartner|Hproject]].
        - rewrite Hempty in Hx. discriminate.
        - destruct (Js.truthyStr (transPartner f)); inversion Hx; now subst.
        - exfalso. now apply (findProject_listed _ _ Hproject). }
      destruct s as [[ps pj ts] n].
      cbn [callsOf App.runCalls App.invoke App.data App.drawn] in *.
      unfold App.handleUpdateTransaction, App.withTransactions in *.
      cbn [partners projects transactions] in *.
      now repeat split.
Qed.

(** X17. Opening a listed transaction for editing and submitting the form
    at once asks for an update with exactly that transaction, provided its
    id is non-empty, its partnerId is absent or non-empty, and the source
    shown in the form is not the id of a project. *)
Theorem edit_without_change (data : AppState) (f : Form) (t : Transaction.t) :
  In t (shownTransactions data f) ->
  Js.truthy (selectedProjectId f) = true ->
  Js.truthyStr (Transaction.id t) = true ->
  (forall x, Transaction.partnerId t = Some x -> Js.truthyStr x = true) ->
  findProject data (transPartner (startEditing t f)) = None ->
  handleFormSubmit data (startEditing t f) = Submit [OnUpdateTransaction t].
Proof.
  intros Hshown Hsel Hid Hpartner Hsource.
  apply filter_In in Hshown. destruct Hshown as [_ Hproj].
  destruct (selectedProjectId f) as [P|] eqn:HP; cbn in Hsel, Hproj;
    [|discriminate].
  apply String.eqb_eq in Hproj. subst P.
  unfold handleFormSubmit.
  cbn [startEditing selectedProjectId transAmount editingId].
  rewrite HP, Hsel, Hid. cbn [negb].
  unfold submitEdit. rewrite Hsource.
  destruct t as [i pj pa ty am da no]. cbn in *.
  do 3 f_equal. f_equal.
  destruct pa as [x|]; [|reflexivity].
  rewrite (Hpartner x eq_refl). now rewrite (Hpartner x eq_refl).
Qed.

(** X18. In edit mode the handler asks first for one update, of the edited
    id on the selected project with the new amount, and never for more than
    one addition. When the source is a project the update clears the
    partnerId and one EXPENSE of the same amount is added on the source
    project; otherwise nothing is added and the partnerId is the source, or
    absent for the pool. *)
Theorem edit_requests (data : AppState) (f : Form) (P editing : string)
        (A : Q) :
  selectedProjectId f = Some P -> Js.truthyStr P = true ->
  editingId f = Some editing -> Js.truthyStr editing = true ->
  transAmount f = Some A ->
  exists updated rest,
    handleFormSubmit data f = Submit (OnUpdateTransaction updated :: rest)
    /\ Transaction.id updated = editing
    /\ Transaction.projectId updated = P
    /\ Transaction.type updated = transType f
    /\ Transaction.amount updated = A
    /\ match findProject data (transPartner f) with
       | Some source =>
           Transaction.partnerId updated = None
           /\ exists note,
                rest = [ OnAddTransaction
                           (NewTransaction.mk (Project.id source) None EXPENSE
                              A (transDate f) note) ]
       | None =>
           rest = []
           /\ Transaction.note updated = transNote f
           /\ Transaction.partnerId updated
              = (if Js.truthyStr (transPartner f)
                 then Some (transPartner f) else None)
       end.
Proof.
  intros Hsel HP Hed He Ham.
  rewrite (edit_calls data f P editing A) by assumption.
  unfold submitEdit.
  destruct (findProject data (transPartner f)) as [source|];
    do 2 eexists; (split; [reflexivity|]); cbn; repeat split; eauto.
Qed.

(** X19. Recording an expense paid from the pool or by a partner, in one
    piece, gives the same record in both versions of the form: when the
    type is EXPENSE, split mode is off and the source is empty or the id of
    a partner that is not also the id of a project, the two handlers return
    the same result. *)
Theorem simple_expense_same_in_both_versions (data : AppState) (f : Form) :
  Js.truthy (editingId f) = false ->
  transType f = EXPENSE ->
  isSplitMode f = false ->
  existsb (fun p => String.eqb (Project.id p) (transPartner f)) (projects data)
  = false ->
  (transPartner f = EmptyString
   \/ existsb (fun p => String.eqb (Partner.id p) (transPartner f))
              (partners data) = true) ->
  (existsb (fun p => String.eqb (Project.id p) "POOL") (projects data) = false
   /\ existsb (fun p => String.eqb (Partner.id p) "POOL") (partners data)
      = false) ->
  handleFormSubmit data f = ProjectsV1.handleFormSubmit f.
Proof.
  intros Hedit Hty Hmode Hnotproj Hsource [Hpool1 Hpool2].
  unfold handleFormSubmit, ProjectsV1.handleFormSubmit.
  destruct (selectedProjectId f) as [P|]; [|reflexivity].
  destruct (transAmount f) as [A|]; [|reflexivity].
  destruct (Js.truthyStr P); cbn [negb]; [|reflexivity].
  assert (Hnew : submitNew data f P A =
                 Submit [ OnAddTransaction
                            (NewTransaction.mk P
                               (if Js.truthyStr (transPartner f)
                                then Some (transPartner f) else None)
                               (transType f) A (transDate f) (transNote f)) ]).
  { unfold submitNew, submitCreate. rewrite Hmode, Hty. cbn [flat_map].
    rewrite app_nil_r. unfold processSource. cbn [fst snd].
    destruct Hsource as [Hempty|Hpartner].
    - rewrite Hempty. cbn [Js.truthyStr String.eqb negb].
      rewrite Hpool1, Hpool2, Hmode. reflexivity.
    - destruct (Js.truthyStr (transPartner f)) eqn:Htr.
      + rewrite Hnotproj, Hpartner, Hmode. reflexivity.
      + unfold Js.truthyStr in Htr. apply negb_false_iff in Htr.
        apply String.eqb_eq in Htr. rewrite Htr in *.
        rewrite Hpool1, Hpool2, Hmode. reflexivity. }
  destruct (editingId f) as [editing|]; cbn in Hedit;
    [rewrite Hedit|]; exact Hnew.
Qed.

(** X20. Conservation where it holds: a validated split request without
    negative sub-amounts, whose keys are unique, whose target project is
    not one of its own sources and whose reconciliation involves no
    rounding (as with whole amounts whose absolute values add up to at most
    2^53), records on the target project the requested amount up to the
    tolerance of 1. *)
Theorem validated_split_conserves_amount (data : AppState) (f : Form)
        (P : string) (A : Q) :
  isSplitMode f = true ->
  Js.truthy (editingId f) = false ->
  selectedProjectId f = Some P ->
  transAmount f = Some A ->
  NoDup (map fst (splitAmounts f)) ->
  ~ In P (map fst (splitAmounts f)) ->
  (forall k a, In (k, Some a) (splitAmounts f) -> 0 <= a) ->
  exactReconciliation (splitAmounts f) A
  \/ wholeAmounts (splitAmounts f) A ->
  rejected (handleFormSubmit data f) = false ->
  Qabs (expenseOn P (added (handleFormSubmit data f)) - A) <= 1.
Proof.
  intros Hsplit Hedit Hsel Ham Hnd Hself Hnn Hexact.
  apply split_conservation_nonnegative; try assumption.
  destruct Hexact as [H|H]; [exact H|now apply wholeAmounts_exact].
Qed.

End TransactionForm.

(** ** Instances *)

(** Partner [p1] of the fallback state: 62.5% in both views. *)
Lemma dashboard_percentage_is_share_witness :
  let p := Partner.mk "p1" "คุณเอก" "👨‍💼" "#818CF8" in
  Dashboard.percentage Sample.INITIAL_DATA
    (Dashboard.mkSlice (Partner.name p)
       (Js.getOrZero (Partner.id p)
          (fold_left Dashboard.tally (transactions Sample.INITIAL_DATA) []))
       (Partner.color p))
  == PartnerSummary.sharePercent Sample.INITIAL_DATA p.
Proof.
  cbn zeta. apply dashboard_percentage_is_share. reflexivity.
Defined.


(** Partner [p3] has no transaction: the deletion goes through and the
    references stay valid. *)
Lemma delete_partner_keeps_references_witness :
  DataModel.partnerRefsResolve
    (App.deletePartnerOptimistic "p3" Sample.INITIAL_DATA)
  /\ fst (App.handleDeletePartner None "p3" Sample.INITIAL_DATA)
     = App.deletePartnerOptimistic "p3" Sample.INITIAL_DATA.
Proof.
  destruct (delete_partner_keeps_references "p3" Sample.INITIAL_DATA)
    as (_ & Hpass & _).
  - intros t x Hin Hp. cbn in Hin |- *.
    destruct Hin as [<-|[<-|[]]]; inversion Hp; subst; auto.
  - destruct (Hpass eq_refl) as (Hrefs & _ & Haccepted & _).
    split; [exact Hrefs|exact Haccepted].
Defined.

Lemma realtime_keeps_unique_ids_witness :
  NoDup (DataModel.transactionIds
           (App.handleRealtimeUpdate
              (App.OnTransactions
                 (App.INSERT
                    (SupabaseService.receivedTransaction
                       (SupabaseService.mkDbTransaction "t9" "proj1" None
                          INCOME 1200 "2023-03-01" "ขายกาแฟ"))))
              Sample.INITIAL_DATA)).
Proof.
  apply (realtime_keeps_unique_ids _ Sample.INITIAL_DATA).
  unfold DataModel.partnerIds, DataModel.projectIds, DataModel.transactionIds.
  cbn. repeat split; repeat constructor; cbn; intuition discriminate.
Defined.

(** An UPDATE for a transaction the session does not hold. *)
Lemma realtime_unknown_id_ignored_witness :
  App.handleRealtimeUpdate
    (App.OnTransactions
       (App.UPDATE
          (SupabaseService.receivedTransaction
             (SupabaseService.mkDbTransaction "t9" "proj1" None INCOME 1200
                "2023-03-01" "ขายกาแฟ"))))
    Sample.INITIAL_DATA
  = Sample.INITIAL_DATA.
Proof.
  apply realtime_unknown_id_ignored; [reflexivity|].
  cbn. intuition discriminate.
Defined.

(** The form set to INCOME still records an EXPENSE. *)
Lemma creation_records_are_expenses_witness :
  let f := Projects.mkForm (Some "proj1"%string) None INCOME (Some 1200) ""
                           "ขายกาแฟ" "2023-03-01" false [] in
  let r := NewTransaction.mk "proj1" None EXPENSE 1200 "2023-03-01" "ขายกาแฟ" in
  AllocationSpec.added (Projects.handleFormSubmit Sample.INITIAL_DATA f) = [r]
  /\ NewTransaction.type r = EXPENSE.
Proof.
  cbn zeta. split; [reflexivity|].
  apply (creation_records_are_expenses Sample.INITIAL_DATA
           (Projects.mkForm (Some "proj1"%string) None INCOME (Some 1200) ""
                            "ขายกาแฟ" "2023-03-01" false []));
    [reflexivity|cbn; auto].
Defined.

(** An expense paid by partner [p1] is recorded, and the expense [t3] is
    edited to be paid by partner [p2]. *)
Lemma submit_keeps_references_witness :
  let s := App.mkSession Sample.twoProjects 0 in
  let created :=
    App.submitForm Sample.ids App.handleUpdateTransaction
                   (Sample.single 1000 "p1") s in
  let edited :=
    App.submitForm Sample.ids App.handleUpdateTransaction
                   (Sample.edit "t3" 2500 "p2") s in
  (DataModel.projectRefsResolve (App.data created)
   /\ DataModel.partnerRefsResolve (App.data created))
  /\ (DataModel.projectRefsResolve (App.data edited)
      /\ DataModel.partnerRefsResolve (App.data edited)).
Proof.
  cbn zeta.
  assert (Hproj : DataModel.projectRefsResolve Sample.twoProjects).
  { intros t Hin. cbn in Hin |- *.
    destruct Hin as [<-|[<-|[<-|[]]]]; cbn; auto. }
  assert (Hpart : DataModel.partnerRefsResolve Sample.twoProjects).
  { intros t x Hin Hp. cbn in Hin |- *.
    destruct Hin as [<-|[<-|[<-|[]]]]; inversion Hp; subst; auto. }
  split.
  - destruct (proj1 (submit_keeps_references Sample.ids
                       (Sample.single 1000 "p1")
                       (App.mkSession Sample.twoProjects 0) Hproj Hpart)
                eq_refl App.handleUpdateTransaction)
      as (H1 & H2 & _).
    split; [exact H1|exact H2].
  - destruct (proj2 (submit_keeps_references Sample.ids
                       (Sample.edit "t3" 2500 "p2")
                       (App.mkSession Sample.twoProjects 0) Hproj Hpart)
                eq_refl)
      as (H1 & H2 & _).
    + right. left. cbn. auto.
    + split; [exact H1|exact H2].
Defined.

(** Editing the pool expense [t3] without touching the form. *)
Lemma edit_without_change_witness :
  let t3 := Transaction.mk "t3" "proj1" None EXPENSE 2000 "2023-02-01"
                           "ค่าวัสดุ" in
  Projects.handleFormSubmit Sample.twoProjects
    (Projects.startEditing t3 Sample.blank)
  = Projects.Submit [Projects.OnUpdateTransaction t3].
Proof.
  cbn zeta. apply edit_without_change; try reflexivity.
  - cbn. auto.
  - discriminate.
Defined.

Lemma edit_requests_witness :
  exists updated rest,
    Projects.handleFormSubmit Sample.twoProjects
      (Sample.edit "t3" 2500 "proj2")
    = Projects.Submit (Projects.OnUpdateTransaction updated :: rest)
    /\ Transaction.id updated = "t3"%string
    /\ Transaction.amount updated = 2500
    /\ List.length rest = 1%nat.
Proof.
  destruct (edit_requests Sample.twoProjects (Sample.edit "t3" 2500 "proj2")
              "proj1" "t3" 2500 eq_refl eq_refl eq_refl eq_refl eq_refl)
    as (updated & rest & Hcalls & Hid & _ & _ & Hamount & Hrest).
  cbn in Hrest. destruct Hrest as (_ & note & ->).
  exists updated. eexists. repeat split; try eassumption; reflexivity.
Defined.

Lemma simple_expense_same_in_both_versions_witness :
  Projects.handleFormSubmit Sample.INITIAL_DATA (Sample.single 1000 "p1")
  = ProjectsV1.handleFormSubmit (Sample.single 1000 "p1").
Proof.
  apply simple_expense_same_in_both_versions; try reflexivity.
  - right. reflexivity.
  - split; reflexivity.
Defined.

(** Example 8 of the specification: 1,000 split as 400 from the pool and
    600 from a partner. *)
Lemma validated_split_conserves_amount_witness :
  let f := Sample.split 1000 [("POOL"%string, Some 400);
                              ("p1"%string, Some 600)] in
  Qabs (AllocationSpec.expenseOn "proj1"
          (AllocationSpec.added
             (Projects.handleFormSubmit Sample.INITIAL_DATA f)) - 1000) <= 1.
Proof.
  cbn zeta. apply validated_split_conserves_amount; try reflexivity.
  - cbn. repeat constructor; cbn; intuition discriminate.
  - cbn. intuition discriminate.
  - intros k a Hin. cbn in Hin.
    destruct Hin as [E|[E|[]]]; inversion E; subst; vm_compute; discriminate.
  - right. exists [400%Z; 600%Z], 1000%Z. split; [|split].
    + repeat constructor.
    + reflexivity.
    + apply Z.leb_le. reflexivity.
Defined.
